(** * notebook-utils: the two FaaS clients of [cloud_service_utils]

    A shallow embedding of [cloud_service_utils/inpainting.py] and
    [cloud_service_utils/segmentation.py].  Both modules consist of one
    function that reads a credential from the process environment, encodes
    its image inputs as base64 text, posts a JSON document to a remote
    endpoint and turns the answer into a return value or a file.

    The functions are effectful, so they are embedded in a state-and-exception
    monad over an explicit [World] (environment variables, files, standard
    output, the requests handed to the HTTP transport).  What the functions
    obtain from libraries outside the repository (OpenCV's codecs, the remote
    service behind [requests.post]) is gathered in the record [Externals];
    the parts of the Python standard library whose results the properties
    speak about (base64, JSON serialisation, name resolution in the module
    namespace) are written out. *)

From Stdlib Require Import ZArith Lia List Ascii String Bool.
From Stdlib.Strings Require Import Byte.
From stdpp Require Import base option list strings gmap pretty.

Local Open Scope string_scope.
Local Open Scope Z_scope.

Set Warnings "-register-all".

(** ** Bytes *)

Definition byte_to_Z (b : byte) : Z := Z.of_N (Byte.to_N b).

(** Storing an integer into an [unsigned char]: only the low eight bits are
    kept. *)
Definition byte_of_Z (z : Z) : byte :=
  match Byte.of_N (Z.to_N (z mod 256)) with
  | Some b => b
  | None => x00
  end.

Definition bytes_of_string (s : string) : list byte := list_byte_of_string s.

(** ** Base64 (RFC 4648, the standard alphabet), as [base64.b64encode] and
    [base64.b64decode] of the Python standard library compute it *)

Module Base64.

Definition alphabet : string :=
  "ABCDEFGHIJKLMNOPQRSTUVWXYZabcdefghijklmnopqrstuvwxyz0123456789+/".

Definition pad : ascii := "="%char.

(** The character of a six-bit group. *)
Definition b2a (i : Z) : ascii :=
  match String.get (Z.to_nat i) alphabet with
  | Some c => c
  | None => pad
  end.

(** The six-bit group of a character, [None] outside the alphabet. *)
Definition a2b (c : ascii) : option Z :=
  let n := Z.of_N (N_of_ascii c) in
  if (65 <=? n) && (n <=? 90) then Some (n - 65)
  else if (97 <=? n) && (n <=? 122) then Some (n - 71)
  else if (48 <=? n) && (n <=? 57) then Some (n + 4)
  else if n =? 43 then Some 62
  else if n =? 47 then Some 63
  else None.

(** The four characters of a full group of three bytes. *)
Definition enc3 (a b c : Z) (k : string) : string :=
  String (b2a (Z.shiftr a 2))
    (String (b2a (Z.lor (Z.shiftl (Z.land a 3) 4) (Z.shiftr b 4)))
       (String (b2a (Z.lor (Z.shiftl (Z.land b 15) 2) (Z.shiftr c 6)))
          (String (b2a (Z.land c 63)) k))).

Fixpoint b64encode (bs : list byte) : string :=
  match bs with
  | [] => ""
  | [a] =>
      let a := byte_to_Z a in
      String (b2a (Z.shiftr a 2))
        (String (b2a (Z.shiftl (Z.land a 3) 4))
           (String pad (String pad "")))
  | [a; b] =>
      let a := byte_to_Z a in
      let b := byte_to_Z b in
      String (b2a (Z.shiftr a 2))
        (String (b2a (Z.lor (Z.shiftl (Z.land a 3) 4) (Z.shiftr b 4)))
           (String (b2a (Z.shiftl (Z.land b 15) 2))
              (String pad "")))
  | a :: b :: c :: rest =>
      enc3 (byte_to_Z a) (byte_to_Z b) (byte_to_Z c) (b64encode rest)
  end.

(** The decoder in its default, lenient mode ([validate=False]): a
    character outside the alphabet is skipped, decoding stops at the
    padding that completes a group of four, and input that ends inside a
    group is an error ([None]).  [quad_pos] is the position inside the
    current group, [leftchar] the bits left over from the previous
    character and [pads] the number of padding characters seen since the
    last data character. *)
Fixpoint a2b_base64 (s : string) (quad_pos : nat) (leftchar : Z) (pads : nat)
  : option (list byte) :=
  match s with
  | "" => if Nat.eqb quad_pos 0 then Some [] else None
  | String ch rest =>
      if Ascii.eqb ch pad then
        if Nat.leb 2 quad_pos then
          if Nat.leb 4 (quad_pos + S pads) then Some []
          else a2b_base64 rest quad_pos leftchar (S pads)
        else a2b_base64 rest quad_pos leftchar pads
      else
        match a2b ch with
        | None => a2b_base64 rest quad_pos leftchar pads
        | Some this_ch =>
            match quad_pos with
            | O => a2b_base64 rest 1 this_ch 0
            | 1%nat =>
                cons (byte_of_Z (Z.lor (Z.shiftl leftchar 2) (Z.shiftr this_ch 4)))
                  <$> a2b_base64 rest 2 (Z.land this_ch 15) 0
            | 2%nat =>
                cons (byte_of_Z (Z.lor (Z.shiftl leftchar 4) (Z.shiftr this_ch 2)))
                  <$> a2b_base64 rest 3 (Z.land this_ch 3) 0
            | _ =>
                cons (byte_of_Z (Z.lor (Z.shiftl leftchar 6) this_ch))
                  <$> a2b_base64 rest 0 0 0
            end
        end
  end.

(** A [str] argument must be ASCII ([ValueError] otherwise). *)
Definition is_ascii_string (s : string) : bool :=
  forallb (fun c => (N_of_ascii c <? 128)%N) (list_ascii_of_string s).

Definition b64decode (s : string) : option (list byte) :=
  if is_ascii_string s then a2b_base64 s 0 0 0 else None.

End Base64.

(** ** JSON values, as [response.json()] returns them and [json.dumps]
    serialises them *)

(** A Python [float] is kept as the literal [json.dumps] writes for it (its
    [repr]): floating-point arithmetic plays no part in the two clients. *)
Inductive json : Type :=
  | JNull
  | JBool (b : bool)
  | JInt (n : Z)
  | JFloat (lit : string)
  | JStr (s : string)
  | JArr (items : list json)
  | JObj (fields : list (string * json)).

Module Json.

Definition dquote : ascii := "034"%char.
Definition backslash : ascii := "092"%char.

Definition hex_digit (n : N) : ascii :=
  match String.get (N.to_nat n) "0123456789abcdef" with
  | Some c => c
  | None => "0"%char
  end.

(** [json.dumps] with [ensure_ascii=True]: everything outside the
    printable ASCII range, the quote and the backslash are escaped.  The
    strings of the model hold code points below 256. *)
Definition escape_char (c : ascii) : string :=
  let n := N_of_ascii c in
  if Ascii.eqb c dquote then String backslash (String dquote "")
  else if Ascii.eqb c backslash then String backslash (String backslash "")
  else if (n =? 10)%N then String backslash "n"
  else if (n =? 13)%N then String backslash "r"
  else if (n =? 9)%N then String backslash "t"
  else if (n =? 8)%N then String backslash "b"
  else if (n =? 12)%N then String backslash "f"
  else if (32 <=? n)%N && (n <=? 126)%N then String c ""
  else String backslash
         ("u00" ++ String (hex_digit (n / 16)) (String (hex_digit (n mod 16)) "")).

Fixpoint escape (s : string) : string :=
  match s with
  | "" => ""
  | String c rest => escape_char c ++ escape rest
  end.

Definition quote (s : string) : string :=
  String dquote (escape s ++ String dquote "").

(** [json.dumps(v)] with the default separators [", "] and [": "]. *)
Fixpoint dumps (v : json) : string :=
  match v with
  | JNull => "null"
  | JBool true => "true"
  | JBool false => "false"
  | JInt n => pretty n
  | JFloat lit => lit
  | JStr s => quote s
  | JArr items =>
      "[" ++
      (fix items_text (l : list json) : string :=
         match l with
         | [] => ""
         | x :: rest =>
             dumps x ++
             match rest with [] => "" | _ :: _ => ", " ++ items_text rest end
         end) items ++ "]"
  | JObj fields =>
      "{" ++
      (fix fields_text (l : list (string * json)) : string :=
         match l with
         | [] => ""
         | (k, x) :: rest =>
             quote k ++ ": " ++ dumps x ++
             match rest with [] => "" | _ :: _ => ", " ++ fields_text rest end
         end) fields ++ "}"
  end.

(** Python's truth value of a decoded JSON value. *)
Definition truthy (v : json) : bool :=
  match v with
  | JNull => false
  | JBool b => b
  | JInt n => negb (n =? 0)
  | JFloat lit => negb (String.eqb lit "0.0" || String.eqb lit "-0.0")
  | JStr s => negb (String.eqb s "")
  | JArr items => match items with [] => false | _ :: _ => true end
  | JObj fields => match fields with [] => false | _ :: _ => true end
  end.

(** [d.get(key, default)] on a [dict]. *)
Fixpoint dict_get (fields : list (string * json)) (key : string) (default : json)
  : json :=
  match fields with
  | [] => default
  | (k, v) :: rest => if String.eqb k key then v else dict_get rest key default
  end.

End Json.

(** ** Values, exceptions and the outside world *)

(** A decoded OpenCV image: a [rows] x [cols] x [channels] array of
    [uint8]. *)
Record Image := {
  rows : nat;
  cols : nat;
  channels : nat;
  pixels : list byte
}.

(** What [requests.post] is called with. *)
Record Request := {
  req_url : string;
  req_headers : list (string * string);
  req_data : string
}.

(** What [requests.post] returns.  [resp_json] is the value of
    [response.json()]: the decoded body, or [None] when the body is not JSON
    (the call then raises). *)
Record Response := {
  status_code : Z;
  text : string;
  resp_json : option json
}.

Inductive Exn : Type :=
  | ValueError (msg : string)
  | NameError (name : string)
  | AttributeError (attr : string)
  | TypeError (msg : string)
  | FileNotFoundError (path : string)
  | OSError (path : string)
  | Cv2Error
  | BinasciiError
  | JSONDecodeError
  | HTTPError (response : Response)
  | RequestException (msg : string).

Inductive Outcome (A : Type) : Type :=
  | Return (a : A)
  | Raise (e : Exn).
Arguments Return {A} a.
Arguments Raise {A} e.

(** The libraries and services outside the repository that the clients call.
    Each may raise. *)
Record Externals := {
  (** [cv2.imencode('.png', image)], the encoded buffer *)
  cv2_imencode_png : Image -> Outcome (list byte);
  (** [cv2.imdecode(np.frombuffer(data, np.uint8), cv2.IMREAD_COLOR)]: an
      image, or Python's [None] when the bytes are not an image *)
  cv2_imdecode_color : list byte -> Outcome (option Image);
  (** the remote service behind [requests.post] *)
  http_post : Request -> Outcome Response;
  (** whether [open(path, "w")] succeeds *)
  can_open_for_writing : string -> bool
}.

(** One line of standard output.  The lines are kept by their parts:
    [Line_payload] stands for the payload laid out by
    [json.dumps(payload, indent=2)], and the wall-clock figure of the last
    debug line of the inpainting client (two readings of [time.time()]) is
    left out. *)
Inductive Line : Type :=
  | Line_post (url : string)
  | Line_payload (payload : json)
  | Line_status (code : Z)
  | Line_text (body : string)
  | Line_inference_time (v : json)
  | Line_overall_time (v : json)
  | Line_frontend_time
  | Line_inpainted_saved (path : string)
  | Line_segmentation_saved (path : string).

Record World := {
  environ : gmap string string;
  files : gmap string (list byte);
  stdout : list Line;
  sent : list Request
}.

(** An object bound in a module's global namespace. *)
Inductive PyObject : Type :=
  | PyModule (name : string)
  | PyStr (s : string)
  | PyFunction (name : string).

(** ** The monad of effects *)

Definition M (A : Type) : Type := World -> Outcome A * World.

Definition ret {A} (a : A) : M A := fun w => (Return a, w).

Definition raise {A} (e : Exn) : M A := fun w => (Raise e, w).

Definition bind {A B} (m : M A) (k : A -> M B) : M B :=
  fun w =>
    match m w with
    | (Return a, w') => k a w'
    | (Raise e, w') => (Raise e, w')
    end.

Declare Scope py_scope.
Delimit Scope py_scope with py.
Notation "x <- m ;; k" := (bind m (fun x => k))
  (at level 100, m at next level, k at level 200, right associativity) : py_scope.
Notation "m ;; k" := (bind m (fun _ => k))
  (at level 100, k at level 200, right associativity) : py_scope.
Local Open Scope py_scope.

Definition lift {A} (o : Outcome A) : M A := fun w => (o, w).

Definition when (b : bool) (m : M unit) : M unit := if b then m else ret tt.

(** [os.getenv(name)] *)
Definition os_getenv (name : string) : M (option string) :=
  fun w => (Return (environ w !! name), w).

(** [print(line)] *)
Definition print (l : Line) : M unit :=
  fun w =>
    (Return tt,
     {| environ := environ w; files := files w;
        stdout := (stdout w ++ [l])%list; sent := sent w |}).

(** [open(path, "rb").read()] *)
Definition read_binary (path : string) : M (list byte) :=
  fun w =>
    match files w !! path with
    | Some data => (Return data, w)
    | None => (Raise (FileNotFoundError path), w)
    end.

(** [open(path, "w")] and [open(path, "wb")]: the file is created, or
    truncated when it exists. *)
Definition open_for_writing (X : Externals) (path : string) : M unit :=
  fun w =>
    if can_open_for_writing X path then
      (Return tt,
       {| environ := environ w; files := <[path := []]> (files w);
          stdout := stdout w; sent := sent w |})
    else (Raise (OSError path), w).

(** [out_file.write(data)] on a file opened for writing *)
Definition file_write (path : string) (data : list byte) : M unit :=
  fun w =>
    (Return tt,
     {| environ := environ w;
        files := <[path := (default [] (files w !! path) ++ data)%list]> (files w);
        stdout := stdout w; sent := sent w |}).

(** [requests.post(url, headers=..., data=...)] *)
Definition requests_post (X : Externals) (req : Request) : M Response :=
  fun w =>
    (http_post X req,
     {| environ := environ w; files := files w;
        stdout := stdout w; sent := (sent w ++ [req])%list |}).

(** [response.raise_for_status()]: the requests library raises for the
    client-error and server-error classes, 400 to 599. *)
Definition raise_for_status (response : Response) : M unit :=
  if (400 <=? status_code response) && (status_code response <? 600)
  then raise (HTTPError response)
  else ret tt.

(** [response.json()] *)
Definition response_json_of (response : Response) : M json :=
  match resp_json response with
  | Some v => ret v
  | None => raise JSONDecodeError
  end.

(** [v.get(key, default)]: only a [dict] has the method. *)
Definition py_get (v : json) (key : string) (default : json) : M json :=
  match v with
  | JObj fields => ret (Json.dict_get fields key default)
  | _ => raise (AttributeError "get")
  end.

(** [base64.b64decode(v)] on a decoded JSON value *)
Definition base64_b64decode (v : json) : M (list byte) :=
  match v with
  | JStr s =>
      match Base64.b64decode s with
      | Some data => ret data
      | None =>
          if Base64.is_ascii_string s then raise BinasciiError
          else raise (ValueError "string argument should contain only ASCII characters")
      end
  | _ => raise (TypeError "argument should be a bytes-like object or ASCII string")
  end.

(** Iterating over a decoded JSON value in a comprehension: a list yields its
    items, a string its characters, a dict its keys; nothing else is
    iterable. *)
Definition py_iter (v : json) : M (list json) :=
  match v with
  | JArr items => ret items
  | JStr s => ret (map (fun c => JStr (String c "")) (list_ascii_of_string s))
  | JObj fields => ret (map (fun kv => JStr (fst kv)) fields)
  | _ => raise (TypeError "object is not iterable")
  end.

Fixpoint for_each {A B} (f : A -> M B) (l : list A) : M (list B) :=
  match l with
  | [] => ret []
  | x :: rest => y <- f x ;; ys <- for_each f rest ;; ret (y :: ys)
  end.

(** *** Names of the module namespace

    A global name is looked up when the expression that mentions it is
    evaluated.  [globals] is the namespace of the module the running function
    belongs to. *)
Definition resolve (globals : gmap string PyObject) (name : string) : M PyObject :=
  match globals !! name with
  | Some o => ret o
  | None => raise (NameError name)
  end.

(** Evaluating [json.<attr>]: the name must resolve, and to the [json]
    module of the standard library. *)
Definition json_attribute (globals : gmap string PyObject) (attr : string) : M unit :=
  o <- resolve globals "json" ;;
  match o with
  | PyModule m => if String.eqb m "json" then ret tt else raise (AttributeError attr)
  | _ => raise (AttributeError attr)
  end.

(** [json.dumps(v)] *)
Definition json_dumps (globals : gmap string PyObject) (v : json) : M string :=
  json_attribute globals "dumps" ;; ret (Json.dumps v).

(** [json.dump(v, out_file)], [out_file] being the file opened at [path] *)
Definition json_dump (globals : gmap string PyObject) (v : json) (path : string)
  : M unit :=
  json_attribute globals "dump" ;; file_write path (bytes_of_string (Json.dumps v)).

(** *** What the two clients have in common *)

(** [x is not None] *)
Definition is_not_None {A} (x : option A) : bool :=
  match x with Some _ => true | None => false end.

Definition credential_variable : string := "RUNPOD_API_KEY".

Definition endpoint_url_of (endpoint_id : string) : string :=
  "https://api.runpod.ai/v2/" ++ endpoint_id ++ "/runsync".

Definition request_headers (api_key : string) : list (string * string) :=
  [("Content-Type", "application/json"); ("Authorization", "Bearer " ++ api_key)].

(** The block "Convert image to base64" (inpainting.py lines 38-45 and 48-55,
    segmentation.py lines 38-45): an in-memory image is PNG-encoded, a file
    is read as it is. *)
Definition source_to_base64 (X : Externals) (img : option Image)
    (path : option string) (missing : string) : M string :=
  match img with
  | Some im =>
      buffer <- lift (cv2_imencode_png X im) ;;
      ret (Base64.b64encode buffer)
  | None =>
      match path with
      | Some p =>
          data <- read_binary p ;;
          ret (Base64.b64encode data)
      | None => raise (ValueError missing)
      end
  end.

(** What a call has at hand when it turns to the network. *)
Record Prepared := {
  api_key : string;
  endpoint_url : string;
  payload : json
}.

(** ** cloud_service_utils/inpainting.py *)

Module Inpainting.

Definition RUNPOD_ENDPOINT_ID : string := "906cbtg1541h5c".

(** The namespace of the module once it is loaded: the six imports of
    lines 1-6, the constant and the function. *)
Definition module_globals : gmap string PyObject :=
  list_to_map
    [("time", PyModule "time"); ("requests", PyModule "requests");
     ("base64", PyModule "base64"); ("os", PyModule "os");
     ("cv2", PyModule "cv2"); ("np", PyModule "numpy");
     ("RUNPOD_ENDPOINT_ID", PyStr RUNPOD_ENDPOINT_ID);
     ("inpaint_image_via_faas", PyFunction "inpaint_image_via_faas")].

Record Args := {
  image : option Image;
  image_path : option string;
  mask : option Image;
  mask_path : option string;
  output_path : string;
  endpoint_id : string;
  debug : bool
}.

(** The call [inpaint_image_via_faas()] with every parameter at its
    default. *)
Definition default_args : Args :=
  {| image := None; image_path := None; mask := None; mask_path := None;
     output_path := "result.png"; endpoint_id := RUNPOD_ENDPOINT_ID;
     debug := false |}.

Definition make_payload (image_base64 mask_base64 : string) : json :=
  JObj [("input", JObj [("image", JStr image_base64); ("mask", JStr mask_base64)])].

Section Body.
Variable X : Externals.
(** Python looks a global name up in the dictionary of the module when
    the expression is evaluated, and other code can add to that dictionary
    once the module is loaded.  [injected] holds such additions; a plain
    import has none.  The module's own bindings take precedence. *)
Variable injected : gmap string PyObject.
Variable a : Args.

Definition globals : gmap string PyObject := module_globals ∪ injected.

(** Lines 29-63: credential, endpoint, the two inputs, the payload. *)
Definition prepare : M Prepared :=
  api_key <- os_getenv credential_variable ;;
  match api_key with
  | None => raise (ValueError "RUNPOD_API_KEY environment variable is not set.")
  | Some api_key =>
      if String.eqb api_key "" then
        raise (ValueError "RUNPOD_API_KEY environment variable is not set.")
      else
        let endpoint_url := endpoint_url_of (endpoint_id a) in
        image_base64 <-
          source_to_base64 X (image a) (image_path a)
            "Either image or image_path must be provided." ;;
        mask_base64 <-
          source_to_base64 X (mask a) (mask_path a)
            "Either mask or mask_path must be provided." ;;
        ret {| api_key := api_key; endpoint_url := endpoint_url;
               payload := make_payload image_base64 mask_base64 |}
  end.

(** Lines 65-83: the request.  The arguments of [requests.post] are
    evaluated before the call, [json.dumps(payload)] among them. *)
Definition exchange (p : Prepared) : M Response :=
  when (debug a)
    (print (Line_post (endpoint_url p)) ;;
     json_attribute globals "dumps" ;;
     print (Line_payload (payload p))) ;;
  data <- json_dumps globals (payload p) ;;
  response <-
    requests_post X
      {| req_url := endpoint_url p;
         req_headers := request_headers (api_key p);
         req_data := data |} ;;
  when (debug a)
    (print (Line_status (status_code response)) ;;
     print (Line_text (text response))) ;;
  ret response.

(** Lines 85-115: validation of the response and the output. *)
Definition deliver (response : Response) : M (option Image) :=
  raise_for_status response ;;
  response_json <- response_json_of response ;;
  output_image_base64 <- py_get response_json "output_image" (JStr "") ;;
  stats <- py_get response_json "stats" (JObj []) ;;
  if negb (Json.truthy output_image_base64) then
    raise (ValueError "No output image in the response.")
  else
    output_image_data <- base64_b64decode output_image_base64 ;;
    when (debug a)
      (inference_time <- py_get stats "inference_time" (JStr "N/A") ;;
       print (Line_inference_time inference_time) ;;
       overall_time <- py_get stats "overall_time" (JStr "N/A") ;;
       print (Line_overall_time overall_time) ;;
       print Line_frontend_time) ;;
    if is_not_None (image a) || is_not_None (mask a) then
      result_image <- lift (cv2_imdecode_color X output_image_data) ;;
      ret result_image
    else
      open_for_writing X (output_path a) ;;
      file_write (output_path a) output_image_data ;;
      print (Line_inpainted_saved (output_path a)) ;;
      ret None.

(** The function, run in the namespace [globals]. *)
Definition inpaint_image_via_faas_in : M (option Image) :=
  p <- prepare ;;
  response <- exchange p ;;
  deliver response.

End Body.

(** The function of the module as it is loaded. *)
Definition inpaint_image_via_faas (X : Externals) (a : Args) : M (option Image) :=
  inpaint_image_via_faas_in X ∅ a.

End Inpainting.

(** ** cloud_service_utils/segmentation.py *)

Module Segmentation.

Definition RUNPOD_ENDPOINT_ID : string :=
  "your_default_segmentation_endpoint_id_here".

(** The namespace of the module once it is loaded: the five imports of
    lines 4-8, the constant and the function. *)
Definition module_globals : gmap string PyObject :=
  list_to_map
    [("requests", PyModule "requests"); ("base64", PyModule "base64");
     ("os", PyModule "os"); ("cv2", PyModule "cv2"); ("np", PyModule "numpy");
     ("RUNPOD_ENDPOINT_ID", PyStr RUNPOD_ENDPOINT_ID);
     ("segment_image_via_faas", PyFunction "segment_image_via_faas")].

Record Args := {
  image : option Image;
  image_path : option string;
  class_names : option (list string);
  output_path : string;
  endpoint_id : string;
  debug : bool
}.

Definition default_args : Args :=
  {| image := None; image_path := None; class_names := None;
     output_path := "result.json"; endpoint_id := RUNPOD_ENDPOINT_ID;
     debug := false |}.

(** The dictionary the function returns for an in-memory image. *)
Record Result := {
  masks : list (option Image);
  bounding_boxes : json
}.

Definition class_names_json (class_names : option (list string)) : json :=
  match class_names with
  | None => JNull
  | Some names => JArr (map JStr names)
  end.

Definition make_payload (image_base64 : string)
    (class_names : option (list string)) : json :=
  JObj [("input", JObj [("image", JStr image_base64);
                        ("class_names", class_names_json class_names)])].

Section Body.
Variable X : Externals.
(** Bindings put into the module namespace from outside, as in the
    inpainting module. *)
Variable injected : gmap string PyObject.
Variable a : Args.

Definition globals : gmap string PyObject := module_globals ∪ injected.

(** Lines 29-53: credential, endpoint, the input, the payload. *)
Definition prepare : M Prepared :=
  api_key <- os_getenv credential_variable ;;
  match api_key with
  | None => raise (ValueError "RUNPOD_API_KEY environment variable is not set.")
  | Some api_key =>
      if String.eqb api_key "" then
        raise (ValueError "RUNPOD_API_KEY environment variable is not set.")
      else
        let endpoint_url := endpoint_url_of (endpoint_id a) in
        image_base64 <-
          source_to_base64 X (image a) (image_path a)
            "Either image or image_path must be provided." ;;
        ret {| api_key := api_key; endpoint_url := endpoint_url;
               payload := make_payload image_base64 (class_names a) |}
  end.

(** Lines 55-67: the request. *)
Definition exchange (p : Prepared) : M Response :=
  when (debug a)
    (print (Line_post (endpoint_url p)) ;;
     json_attribute globals "dumps" ;;
     print (Line_payload (payload p))) ;;
  data <- json_dumps globals (payload p) ;;
  response <-
    requests_post X
      {| req_url := endpoint_url p;
         req_headers := request_headers (api_key p);
         req_data := data |} ;;
  when (debug a)
    (print (Line_status (status_code response)) ;;
     print (Line_text (text response))) ;;
  ret response.

(** One element of the list comprehension of line 78. *)
Definition decode_mask (mask : json) : M (option Image) :=
  data <- base64_b64decode mask ;;
  lift (cv2_imdecode_color X data).

(** Lines 69-86: validation of the response and the output. *)
Definition deliver (response : Response) : M (option Result) :=
  raise_for_status response ;;
  response_json <- response_json_of response ;;
  if is_not_None (image a) then
    masks_value <- py_get response_json "masks" (JArr []) ;;
    items <- py_iter masks_value ;;
    masks <- for_each decode_mask items ;;
    bounding_boxes <- py_get response_json "bounding_boxes" (JArr []) ;;
    ret (Some {| masks := masks; bounding_boxes := bounding_boxes |})
  else
    open_for_writing X (output_path a) ;;
    json_dump globals response_json (output_path a) ;;
    print (Line_segmentation_saved (output_path a)) ;;
    ret None.

(** The function, run in the namespace [globals]. *)
Definition segment_image_via_faas_in : M (option Result) :=
  p <- prepare ;;
  response <- exchange p ;;
  deliver response.

End Body.

(** The function of the module as it is loaded. *)
Definition segment_image_via_faas (X : Externals) (a : Args) : M (option Result) :=
  segment_image_via_faas_in X ∅ a.

End Segmentation.

(** ** Either client *)

Inductive Call : Type :=
  | Inpaint (a : Inpainting.Args)
  | Segment (a : Segmentation.Args).

Inductive Returned : Type :=
  | Inpainted (result : option Image)
  | Segmented (result : option Segmentation.Result).

Definition fmap_M {A B} (f : A -> B) (m : M A) : M B := x <- m ;; ret (f x).

(** A call of either function, the module namespace extended by
    [injected]. *)
Definition run_in (X : Externals) (injected : gmap string PyObject) (c : Call)
  : M Returned :=
  match c with
  | Inpaint a => fmap_M Inpainted (Inpainting.inpaint_image_via_faas_in X injected a)
  | Segment a => fmap_M Segmented (Segmentation.segment_image_via_faas_in X injected a)
  end.

(** A call of either function as the modules are loaded. *)
Definition run (X : Externals) (c : Call) : M Returned :=
  match c with
  | Inpaint a => fmap_M Inpainted (Inpainting.inpaint_image_via_faas X a)
  | Segment a => fmap_M Segmented (Segmentation.segment_image_via_faas X a)
  end.

Definition debug_of (c : Call) : bool :=
  match c with
  | Inpaint a => Inpainting.debug a
  | Segment a => Segmentation.debug a
  end.

(** The first stage of either client. *)
Definition prepare_of (X : Externals) (c : Call) : M Prepared :=
  match c with
  | Inpaint a => Inpainting.prepare X a
  | Segment a => Segmentation.prepare X a
  end.

(** The second and the third stage of either client. *)
Definition exchange_of (X : Externals) (injected : gmap string PyObject) (c : Call)
    (p : Prepared) : M Response :=
  match c with
  | Inpaint a => Inpainting.exchange X injected a p
  | Segment a => Segmentation.exchange X injected a p
  end.

Definition deliver_of (X : Externals) (injected : gmap string PyObject) (c : Call)
    (response : Response) : M Returned :=
  match c with
  | Inpaint a => fmap_M Inpainted (Inpainting.deliver X a response)
  | Segment a => fmap_M Segmented (Segmentation.deliver X injected a response)
  end.

Definition globals_of (injected : gmap string PyObject) (c : Call)
  : gmap string PyObject :=
  match c with
  | Inpaint _ => Inpainting.globals injected
  | Segment _ => Segmentation.globals injected
  end.

(** Whether [json.dumps] can be evaluated in a namespace. *)
Definition json_resolves (globals : gmap string PyObject) : bool :=
  match globals !! "json" with
  | Some (PyModule m) => String.eqb m "json"
  | _ => false
  end.

(** The request a prepared call posts. *)
Definition request_of (p : Prepared) : Request :=
  {| req_url := endpoint_url p;
     req_headers := request_headers (api_key p);
     req_data := Json.dumps (payload p) |}.

(** The world after the one line a debugging call prints before it
    serialises the payload. *)
Definition announce (dbg : bool) (url : string) (w : World) : World :=
  if dbg then snd (print (Line_post url) w) else w.

(** ** The vocabulary of the specification *)

(** The specification names the errors by their cause; the code raises
    [ValueError] with a message of its own for three of them and lets the
    HTTP library raise the fourth. *)
Definition MissingCredentialError : Exn :=
  ValueError "RUNPOD_API_KEY environment variable is not set.".

Definition MissingImageError : Exn :=
  ValueError "Either image or image_path must be provided.".

Definition MissingMaskError : Exn :=
  ValueError "Either mask or mask_path must be provided.".

Definition is_MissingInputError (e : Exn) : Prop :=
  e = MissingImageError \/ e = MissingMaskError.

Definition EmptyResultError : Exn := ValueError "No output image in the response.".

Definition is_HttpError (e : Exn) (code : Z) : Prop :=
  exists response, e = HTTPError response /\ status_code response = code.

Definition credential_set (w : World) : Prop :=
  exists k, environ w !! credential_variable = Some k /\ k <> "".

Definition credential_unset (w : World) : Prop :=
  environ w !! credential_variable = None \/
  environ w !! credential_variable = Some "".

(** No buffer and no path. *)
Definition source_absent {A} (img : option A) (path : option string) : Prop :=
  img = None /\ path = None.

(** A source that can be acquired: a buffer OpenCV encodes, or else the path
    of an existing file. *)
Definition source_valid (X : Externals) (w : World) (img : option Image)
    (path : option string) : Prop :=
  match img with
  | Some im => exists buffer, cv2_imencode_png X im = Return buffer
  | None =>
      match path with
      | Some p => is_Some (files w !! p)
      | None => False
      end
  end.

Definition sources_valid (X : Externals) (w : World) (c : Call) : Prop :=
  match c with
  | Inpaint a =>
      source_valid X w (Inpainting.image a) (Inpainting.image_path a) /\
      source_valid X w (Inpainting.mask a) (Inpainting.mask_path a)
  | Segment a =>
      source_valid X w (Segmentation.image a) (Segmentation.image_path a)
  end.

(** An input is missing where the code looks for it: the image has no
    source, or (inpainting) the image was acquired and the mask has no
    source. *)
Definition input_missing (X : Externals) (w : World) (c : Call) (e : Exn) : Prop :=
  match c with
  | Inpaint a =>
      (source_absent (Inpainting.image a) (Inpainting.image_path a) /\
       e = MissingImageError) \/
      (source_valid X w (Inpainting.image a) (Inpainting.image_path a) /\
       source_absent (Inpainting.mask a) (Inpainting.mask_path a) /\
       e = MissingMaskError)
  | Segment a =>
      source_absent (Segmentation.image a) (Segmentation.image_path a) /\
      e = MissingImageError
  end.

(** What a source is encoded to: an in-memory image goes through OpenCV's
    PNG encoder, a file is taken byte for byte. *)
Definition encoded_source (X : Externals) (w : World) (img : option Image)
    (path : option string) (t : string) : Prop :=
  match img with
  | Some im =>
      exists png, cv2_imencode_png X im = Return png /\ t = Base64.b64encode png
  | None =>
      exists p data,
        path = Some p /\ files w !! p = Some data /\ t = Base64.b64encode data
  end.

(** The text under [payload["input"][key]]. *)
Definition input_text (payload : json) (key : string) : option string :=
  match payload with
  | JObj top =>
      match Json.dict_get top "input" JNull with
      | JObj input =>
          match Json.dict_get input key JNull with
          | JStr s => Some s
          | _ => None
          end
      | _ => None
      end
  | _ => None
  end.

(** Every PNG stream starts with these eight bytes. *)
Definition png_signature : list byte := [x89; x50; x4e; x47; x0d; x0a; x1a; x0a].

Fixpoint starts_with (prefix data : list byte) : bool :=
  match prefix, data with
  | [], _ => true
  | _ :: _, [] => false
  | x :: prefix', y :: data' => Byte.eqb x y && starts_with prefix' data'
  end.

Definition has_png_signature (data : list byte) : bool :=
  starts_with png_signature data.

(** A status [raise_for_status] lets through. *)
Definition status_accepted (response : Response) : Prop :=
  (400 <=? status_code response) && (status_code response <? 600) = false.

(** ** Properties of computations *)

(** A computation keeps a component [f] of the world. *)
Definition keeps {A T} (f : World -> T) (m : M A) : Prop :=
  forall w, f (snd (m w)) = f w.

(** A computation that leaves the world as it is. *)
Definition pure {A} (m : M A) : Prop := forall w, snd (m w) = w.

(** A computation that cannot raise. *)
Definition unfailing {A} (m : M A) : Prop :=
  forall w, exists a, fst (m w) = Return a.

(** A computation that leaves the files alone whenever it raises. *)
Definition atomic {A} (m : M A) : Prop :=
  forall w e, fst (m w) = Raise e -> files (snd (m w)) = files w.

(** The ways a call can go: the first stage raises; the payload cannot be
    serialised; the transport raises; the transport answers and the third
    stage runs. *)
Inductive Course (X : Externals) (injected : gmap string PyObject) (c : Call)
    (w : World) : Outcome Returned -> World -> Prop :=
  | course_unprepared e :
      prepare_of X c w = (Raise e, w) ->
      Course X injected c w (Raise e) w
  | course_unsent p e :
      prepare_of X c w = (Return p, w) ->
      json_resolves (globals_of injected c) = false ->
      exchange_of X injected c p w =
        (Raise e, announce (debug_of c) (endpoint_url p) w) ->
      Course X injected c w (Raise e) (announce (debug_of c) (endpoint_url p) w)
  | course_unanswered p e w1 :
      prepare_of X c w = (Return p, w) ->
      json_resolves (globals_of injected c) = true ->
      http_post X (request_of p) = Raise e ->
      sent w1 = (sent w ++ [request_of p])%list -> files w1 = files w ->
      Course X injected c w (Raise e) w1
  | course_answered p response w1 r w' :
      prepare_of X c w = (Return p, w) ->
      json_resolves (globals_of injected c) = true ->
      http_post X (request_of p) = Return response ->
      sent w1 = (sent w ++ [request_of p])%list -> files w1 = files w ->
      deliver_of X injected c response w1 = (r, w') ->
      Course X injected c w r w'.

(** ** Example inputs *)

Definition example_image : Image :=
  {| rows := 1; cols := 1; channels := 3; pixels := [x10; x20; x30] |}.

(** A stand-in for OpenCV in the examples: the PNG signature followed by
    the pixels. *)
Definition example_imencode (im : Image) : Outcome (list byte) :=
  Return (png_signature ++ pixels im)%list.

Definition example_imdecode (data : list byte) : Outcome (option Image) :=
  Return
    (if has_png_signature data then
       Some {| rows := 1; cols := 1; channels := 3; pixels := drop 8 data |}
     else None).

(** A service that answers every request the same way. *)
Definition example_externals (answer : Outcome Response) : Externals :=
  {| cv2_imencode_png := example_imencode;
     cv2_imdecode_color := example_imdecode;
     http_post := fun _ => answer;
     can_open_for_writing := fun _ => true |}.

(** The credential is set; [photo.jpg] starts like a JPEG file, [mask.png]
    like a PNG file. *)
Definition example_world : World :=
  {| environ := {[ "RUNPOD_API_KEY" := "secret" ]};
     files := <["photo.jpg" := [xff; xd8; xff; xe0]]> {[ "mask.png" := png_signature ]};
     stdout := [];
     sent := [] |}.

Definition example_world_no_credential : World :=
  {| environ := ∅; files := files example_world; stdout := []; sent := [] |}.

Definition inpaint_by_path : Inpainting.Args :=
  {| Inpainting.image := None; Inpainting.image_path := Some "photo.jpg";
     Inpainting.mask := None; Inpainting.mask_path := Some "mask.png";
     Inpainting.output_path := "result.png";
     Inpainting.endpoint_id := Inpainting.RUNPOD_ENDPOINT_ID;
     Inpainting.debug := false |}.

Definition inpaint_in_memory : Inpainting.Args :=
  {| Inpainting.image := Some example_image; Inpainting.image_path := None;
     Inpainting.mask := Some example_image; Inpainting.mask_path := None;
     Inpainting.output_path := "result.png";
     Inpainting.endpoint_id := Inpainting.RUNPOD_ENDPOINT_ID;
     Inpainting.debug := false |}.

(** The image is a file that exists, and no mask is given. *)
Definition inpaint_no_mask : Inpainting.Args :=
  {| Inpainting.image := None; Inpainting.image_path := Some "photo.jpg";
     Inpainting.mask := None; Inpainting.mask_path := None;
     Inpainting.output_path := "result.png";
     Inpainting.endpoint_id := Inpainting.RUNPOD_ENDPOINT_ID;
     Inpainting.debug := false |}.

(** The image names a file that does not exist, and no mask is given. *)
Definition inpaint_missing_file : Inpainting.Args :=
  {| Inpainting.image := None; Inpainting.image_path := Some "missing.png";
     Inpainting.mask := None; Inpainting.mask_path := None;
     Inpainting.output_path := "result.png";
     Inpainting.endpoint_id := Inpainting.RUNPOD_ENDPOINT_ID;
     Inpainting.debug := false |}.

Definition segment_by_path : Segmentation.Args :=
  {| Segmentation.image := None; Segmentation.image_path := Some "photo.jpg";
     Segmentation.class_names := None;
     Segmentation.output_path := "result.json";
     Segmentation.endpoint_id := Segmentation.RUNPOD_ENDPOINT_ID;
     Segmentation.debug := false |}.

Definition segment_in_memory : Segmentation.Args :=
  {| Segmentation.image := Some example_image; Segmentation.image_path := None;
     Segmentation.class_names := Some ["cat"];
     Segmentation.output_path := "result.json";
     Segmentation.endpoint_id := Segmentation.RUNPOD_ENDPOINT_ID;
     Segmentation.debug := false |}.

Definition response_500 : Response :=
  {| status_code := 500; text := "Internal Server Error"; resp_json := None |}.

Definition response_304 : Response :=
  {| status_code := 304; text := ""; resp_json := None |}.

(** Status 200, an empty [output_image]. *)
Definition response_empty_output : Response :=
  {| status_code := 200;
     text := Json.dumps (JObj [("output_image", JStr "")]);
     resp_json := Some (JObj [("output_image", JStr "")]) |}.

(** Status 200, the one byte [0x4d] as the output image. *)
Definition response_output : Response :=
  {| status_code := 200;
     text := Json.dumps (JObj [("output_image", JStr "TQ==")]);
     resp_json := Some (JObj [("output_image", JStr "TQ==")]) |}.

(** Status 200, an empty list of masks, the body written without blanks
    after the separators. *)
Definition response_no_masks : Response :=
  {| status_code := 200;
     text := "{" ++ Json.quote "masks" ++ ":[]," ++ Json.quote "bounding_boxes" ++ ":[]}";
     resp_json := Some (JObj [("masks", JArr []); ("bounding_boxes", JArr [])]) |}.

(** A namespace into which [json] was put from outside. *)
Definition with_json : gmap string PyObject := {[ "json" := PyModule "json" ]}.

(** ** Further vocabulary *)

Definition endpoint_id_of (c : Call) : string :=
  match c with
  | Inpaint a => Inpainting.endpoint_id a
  | Segment a => Segmentation.endpoint_id a
  end.

Definition output_path_of (c : Call) : string :=
  match c with
  | Inpaint a => Inpainting.output_path a
  | Segment a => Segmentation.output_path a
  end.

(** The test that sends the result back to the caller instead of to a file:
    inpainting.py line 105, segmentation.py line 76. *)
Definition returns_in_memory (c : Call) : bool :=
  match c with
  | Inpaint a => is_not_None (Inpainting.image a) || is_not_None (Inpainting.mask a)
  | Segment a => is_not_None (Segmentation.image a)
  end.

(** Whether the third stage looks into the decoded answer: the inpainting
    client always does, the segmentation client for an image in memory; for
    an image by path it writes the answer out as it is. *)
Definition reads_answer (c : Call) : bool :=
  match c with
  | Inpaint _ => true
  | Segment a => is_not_None (Segmentation.image a)
  end.

(** Acquiring a source fails: OpenCV refuses the in-memory image (the path
    is then not tried), or no image is given and the path names no file. *)
Definition source_fails (X : Externals) (w : World) (img : option Image)
    (path : option string) (e : Exn) : Prop :=
  match img with
  | Some im => cv2_imencode_png X im = Raise e
  | None => exists p, path = Some p /\ files w !! p = None /\ e = FileNotFoundError p
  end.

(** The first failure a call meets while it acquires its inputs. *)
Definition acquisition_fails (X : Externals) (w : World) (c : Call) (e : Exn) : Prop :=
  match c with
  | Inpaint a =>
      source_fails X w (Inpainting.image a) (Inpainting.image_path a) e \/
      (source_valid X w (Inpainting.image a) (Inpainting.image_path a) /\
       source_fails X w (Inpainting.mask a) (Inpainting.mask_path a) e)
  | Segment a =>
      source_fails X w (Segmentation.image a) (Segmentation.image_path a) e
  end.

(** A decoded JSON value that is a [dict]. *)
Definition is_object (v : json) : bool :=
  match v with JObj _ => true | _ => false end.

(** The bodies of the two requests, character for character. *)
Definition quoted (s : string) : string :=
  String Json.dquote (s ++ String Json.dquote "").

Definition inpainting_body (image_base64 mask_base64 : string) : string :=
  "{" ++ quoted "input" ++ ": {" ++ quoted "image" ++ ": " ++ quoted image_base64 ++
  ", " ++ quoted "mask" ++ ": " ++ quoted mask_base64 ++ "}}".

Definition segmentation_body (image_base64 : string)
    (class_names : option (list string)) : string :=
  "{" ++ quoted "input" ++ ": {" ++ quoted "image" ++ ": " ++ quoted image_base64 ++
  ", " ++ quoted "class_names" ++ ": " ++
  Json.dumps (Segmentation.class_names_json class_names) ++ "}}".

(** A transport that fails for every request. *)
Definition failing_externals (e : Exn) : Externals := example_externals (Raise e).

(** Status 200, an output image and [stats] that is not a dictionary. *)
Definition response_null_stats : Response :=
  {| status_code := 200;
     text := Json.dumps (JObj [("output_image", JStr "TQ=="); ("stats", JNull)]);
     resp_json := Some (JObj [("output_image", JStr "TQ=="); ("stats", JNull)]) |}.

(** Status 200, a body that is no JSON text. *)
Definition response_not_json : Response :=
  {| status_code := 200; text := "<html></html>"; resp_json := None |}.

(** Status 200, a body that is a JSON list. *)
Definition response_list : Response :=
  {| status_code := 200; text := "[]"; resp_json := Some (JArr []) |}.

(** Status 200, two masks: the second is base64 of bytes that are no image. *)
Definition response_two_masks : Response :=
  {| status_code := 200;
     text := "";
     resp_json :=
       Some (JObj [("masks", JArr [JStr "iVBORw0KGgoQ"; JStr "TQ=="]);
                   ("bounding_boxes", JArr [JArr [JInt 0; JInt 0; JInt 1; JInt 1]])]) |}.

(** A service that sends the image of the request back: status 200 and the
    text of [photo.jpg] as the output image. *)
Definition response_echo : Response :=
  {| status_code := 200;
     text := "";
     resp_json := Some (JObj [("output_image", JStr "/9j/4A==")]) |}.

Definition inpaint_debug : Inpainting.Args :=
  {| Inpainting.image := None; Inpainting.image_path := Some "photo.jpg";
     Inpainting.mask := None; Inpainting.mask_path := Some "mask.png";
     Inpainting.output_path := "result.png";
     Inpainting.endpoint_id := Inpainting.RUNPOD_ENDPOINT_ID;
     Inpainting.debug := true |}.

(** ** The vocabulary of the debug flag *)

(** The same call with the debug flag set to [b]. *)
Definition set_debug (c : Call) (b : bool) : Call :=
  match c with
  | Inpaint a =>
      Inpaint
        {| Inpainting.image := Inpainting.image a;
           Inpainting.image_path := Inpainting.image_path a;
           Inpainting.mask := Inpainting.mask a;
           Inpainting.mask_path := Inpainting.mask_path a;
           Inpainting.output_path := Inpainting.output_path a;
           Inpainting.endpoint_id := Inpainting.endpoint_id a;
           Inpainting.debug := b |}
  | Segment a =>
      Segment
        {| Segmentation.image := Segmentation.image a;
           Segmentation.image_path := Segmentation.image_path a;
           Segmentation.class_names := Segmentation.class_names a;
           Segmentation.output_path := Segmentation.output_path a;
           Segmentation.endpoint_id := Segmentation.endpoint_id a;
           Segmentation.debug := b |}
  end.

(** Two worlds that differ in standard output at most. *)
Definition agree (w1 w2 : World) : Prop :=
  environ w1 = environ w2 /\ files w1 = files w2 /\ sent w1 = sent w2.

(** Two computations that, from worlds that agree, end the same way in
    worlds that agree. *)
Definition alike {A} (m1 m2 : M A) : Prop :=
  forall w1 w2,
    agree w1 w2 ->
    fst (m1 w1) = fst (m2 w2) /\ agree (snd (m1 w1)) (snd (m2 w2)).

(** A computation that succeeds and touches standard output only. *)
Definition silent (m : M unit) : Prop :=
  forall w, fst (m w) = Return tt /\ agree (snd (m w)) w.

(** Whatever the service answers to an inpainting request, [stats], when the
    answer has one, is a dictionary.  The segmentation client does not read
    [stats]. *)
Definition stats_harmless (X : Externals) (c : Call) : Prop :=
  match c with
  | Inpaint _ =>
      forall req response fields,
        http_post X req = Return response ->
        resp_json response = Some (JObj fields) ->
        is_object (Json.dict_get fields "stats" (JObj [])) = true
  | Segment _ => True
  end.

(** ** Base64: examples *)

Example b64encode_Man : Base64.b64encode [x4d; x61; x6e] = "TWFu".
Proof. reflexivity. Qed.

Example b64encode_Ma : Base64.b64encode [x4d; x61] = "TWE=".
Proof. reflexivity. Qed.

Example b64encode_M : Base64.b64encode [x4d] = "TQ==".
Proof. reflexivity. Qed.

Example b64decode_TQ : Base64.b64decode "TQ==" = Some [x4d].
Proof. reflexivity. Qed.

Example b64decode_skips_blanks : Base64.b64decode "TW Fu" = Some [x4d; x61; x6e].
Proof. reflexivity. Qed.

Example b64decode_bad_padding : Base64.b64decode "TWF" = None.
Proof. reflexivity. Qed.

(** ** Base64: decoding undoes encoding *)

Lemma byte_to_Z_range (b : byte) : 0 <= byte_to_Z b < 256.
Proof.
  unfold byte_to_Z. pose proof (Byte.to_N_bounded b). lia.
Qed.

Lemma byte_of_to_Z (b : byte) : byte_of_Z (byte_to_Z b) = b.
Proof.
  unfold byte_of_Z. rewrite Z.mod_small by apply byte_to_Z_range.
  unfold byte_to_Z. rewrite N2Z.id, Byte.of_to_N. reflexivity.
Qed.

Lemma land_shiftl_small (x y n : Z) :
  0 <= n -> 0 <= y < 2 ^ n -> Z.land (Z.shiftl x n) y = 0.
Proof.
  intros Hn Hy. apply Z.bits_inj'. intros i Hi.
  rewrite Z.land_spec, Z.bits_0.
  destruct (Z.lt_ge_cases i n) as [Hlt | Hge].
  - rewrite Z.shiftl_spec_low by assumption. reflexivity.
  - destruct (Z.eq_dec y 0) as [-> | Hy0].
    + rewrite Z.bits_0. apply andb_false_r.
    + rewrite (Z.bits_above_log2 y i); [apply andb_false_r | lia |].
      apply Z.lt_le_trans with n; [| assumption].
      apply Z.log2_lt_pow2; lia.
Qed.

Lemma lor_shiftl_add (x y n : Z) :
  0 <= n -> 0 <= y < 2 ^ n -> Z.lor (Z.shiftl x n) y = x * 2 ^ n + y.
Proof.
  intros Hn Hy. rewrite <- Z.shiftl_mul_pow2 by assumption.
  symmetry. apply Z.add_nocarry_lor. apply land_shiftl_small; assumption.
Qed.

Lemma land_3 (x : Z) : Z.land x 3 = x mod 4.
Proof. change 3 with (Z.ones 2). rewrite Z.land_ones by lia. reflexivity. Qed.

Lemma land_15 (x : Z) : Z.land x 15 = x mod 16.
Proof. change 15 with (Z.ones 4). rewrite Z.land_ones by lia. reflexivity. Qed.

Lemma land_63 (x : Z) : Z.land x 63 = x mod 64.
Proof. change 63 with (Z.ones 6). rewrite Z.land_ones by lia. reflexivity. Qed.

Lemma shiftr_2 (x : Z) : Z.shiftr x 2 = x / 4.
Proof. rewrite Z.shiftr_div_pow2 by lia. reflexivity. Qed.

Lemma shiftr_4 (x : Z) : Z.shiftr x 4 = x / 16.
Proof. rewrite Z.shiftr_div_pow2 by lia. reflexivity. Qed.

Lemma shiftr_6 (x : Z) : Z.shiftr x 6 = x / 64.
Proof. rewrite Z.shiftr_div_pow2 by lia. reflexivity. Qed.

Lemma shiftl_2 (x : Z) : Z.shiftl x 2 = x * 4.
Proof. rewrite Z.shiftl_mul_pow2 by lia. reflexivity. Qed.

Lemma shiftl_4 (x : Z) : Z.shiftl x 4 = x * 16.
Proof. rewrite Z.shiftl_mul_pow2 by lia. reflexivity. Qed.

Lemma lor_shiftl_2 (x y : Z) : 0 <= y < 4 -> Z.lor (Z.shiftl x 2) y = x * 4 + y.
Proof. intros. rewrite lor_shiftl_add; [reflexivity | lia | simpl; lia]. Qed.

Lemma lor_shiftl_4 (x y : Z) : 0 <= y < 16 -> Z.lor (Z.shiftl x 4) y = x * 16 + y.
Proof. intros. rewrite lor_shiftl_add; [reflexivity | lia | simpl; lia]. Qed.

Lemma lor_shiftl_6 (x y : Z) : 0 <= y < 64 -> Z.lor (Z.shiftl x 6) y = x * 64 + y.
Proof. intros. rewrite lor_shiftl_add; [reflexivity | lia | simpl; lia]. Qed.

Ltac divmod := Z.div_mod_to_equations; lia.

(** The six-bit groups of three bytes [a], [b], [c], in arithmetic. *)
Lemma sextet0 (a : Z) : Z.shiftr a 2 = a / 4.
Proof. apply shiftr_2. Qed.

Lemma sextet1 (a b : Z) :
  0 <= b < 256 ->
  Z.lor (Z.shiftl (Z.land a 3) 4) (Z.shiftr b 4) = (a mod 4) * 16 + b / 16.
Proof. intros. rewrite shiftr_4, land_3, lor_shiftl_4; [reflexivity | divmod]. Qed.

Lemma sextet1_last (a : Z) : Z.shiftl (Z.land a 3) 4 = (a mod 4) * 16.
Proof. rewrite land_3, shiftl_4. reflexivity. Qed.

Lemma sextet2 (b c : Z) :
  0 <= c < 256 ->
  Z.lor (Z.shiftl (Z.land b 15) 2) (Z.shiftr c 6) = (b mod 16) * 4 + c / 64.
Proof. intros. rewrite shiftr_6, land_15, lor_shiftl_2; [reflexivity | divmod]. Qed.

Lemma sextet2_last (b : Z) : Z.shiftl (Z.land b 15) 2 = (b mod 16) * 4.
Proof. rewrite land_15, shiftl_2. reflexivity. Qed.

Lemma sextet3 (c : Z) : Z.land c 63 = c mod 64.
Proof. apply land_63. Qed.

Import Base64.

Lemma b2a_spec (i : Z) :
  0 <= i < 64 ->
  a2b (b2a i) = Some i /\ Ascii.eqb (b2a i) pad = false /\
  (N_of_ascii (b2a i) <? 128)%N = true.
Proof.
  intros Hi. rewrite <- (Z2Nat.id i) by lia.
  assert (Hn : (Z.to_nat i < 64)%nat) by lia.
  generalize dependent (Z.to_nat i). clear Hi. intros n Hn.
  do 64 (destruct n as [| n]; [vm_compute; auto |]).
  lia.
Qed.

Lemma b2a_ascii (i : Z) : 0 <= i < 64 -> (N_of_ascii (b2a i) <? 128)%N = true.
Proof. intros Hi. apply (b2a_spec i Hi). Qed.

Lemma a2b_base64_data (ch : ascii) (rest : string) (q : nat) (l : Z) (p : nat) (v : Z) :
  Ascii.eqb ch pad = false -> a2b ch = Some v ->
  a2b_base64 (String ch rest) q l p =
  match q with
  | O => a2b_base64 rest 1 v 0
  | 1%nat =>
      cons (byte_of_Z (Z.lor (Z.shiftl l 2) (Z.shiftr v 4)))
        <$> a2b_base64 rest 2 (Z.land v 15) 0
  | 2%nat =>
      cons (byte_of_Z (Z.lor (Z.shiftl l 4) (Z.shiftr v 2)))
        <$> a2b_base64 rest 3 (Z.land v 3) 0
  | _ =>
      cons (byte_of_Z (Z.lor (Z.shiftl l 6) v)) <$> a2b_base64 rest 0 0 0
  end.
Proof.
  intros Hpad Hv. cbn [a2b_base64]. rewrite Hpad, Hv. reflexivity.
Qed.

Lemma a2b_base64_sextet (i : Z) (rest : string) (q : nat) (l : Z) (p : nat) :
  0 <= i < 64 ->
  a2b_base64 (String (b2a i) rest) q l p =
  match q with
  | O => a2b_base64 rest 1 i 0
  | 1%nat =>
      cons (byte_of_Z (Z.lor (Z.shiftl l 2) (Z.shiftr i 4)))
        <$> a2b_base64 rest 2 (Z.land i 15) 0
  | 2%nat =>
      cons (byte_of_Z (Z.lor (Z.shiftl l 4) (Z.shiftr i 2)))
        <$> a2b_base64 rest 3 (Z.land i 3) 0
  | _ =>
      cons (byte_of_Z (Z.lor (Z.shiftl l 6) i)) <$> a2b_base64 rest 0 0 0
  end.
Proof.
  intros Hi. destruct (b2a_spec i Hi) as (Hv & Hpad & _).
  apply a2b_base64_data; assumption.
Qed.

(** Lists three elements at a time. *)
Lemma list_ind3 {A} (P : list A -> Prop) :
  P [] -> (forall a, P [a]) -> (forall a b, P [a; b]) ->
  (forall a b c rest, P rest -> P (a :: b :: c :: rest)) ->
  forall l, P l.
Proof.
  intros H0 H1 H2 H3.
  fix IH 1. intros [| a [| b [| c rest]]];
    [apply H0 | apply H1 | apply H2 | apply H3, IH].
Qed.

Lemma a2b_base64_pad2 (l : Z) :
  a2b_base64 (String pad (String pad "")) 2 l 0 = Some [].
Proof. reflexivity. Qed.

Lemma a2b_base64_pad1 (l : Z) : a2b_base64 (String pad "") 3 l 0 = Some [].
Proof. reflexivity. Qed.

(** Closes [byte_of_Z e = x] once [e], built from shifts and masks, is shown
    to be the value of [x]. *)
Ltac octet :=
  lazymatch goal with
  | |- byte_of_Z ?e = ?x =>
      replace e with (byte_to_Z x);
      [ apply byte_of_to_Z
      | symmetry;
        rewrite ?shiftr_2, ?shiftr_4, ?land_3, ?land_15;
        rewrite ?lor_shiftl_2, ?lor_shiftl_4, ?lor_shiftl_6 by divmod;
        divmod ]
  end.

Lemma a2b_base64_b64encode (bs : list byte) :
  a2b_base64 (b64encode bs) 0 0 0 = Some bs.
Proof.
  induction bs as [| a | a b | a b c rest IH] using list_ind3.
  - reflexivity.
  - pose proof (byte_to_Z_range a) as Ha.
    cbn [b64encode]. cbv zeta.
    rewrite sextet0, sextet1_last.
    rewrite !a2b_base64_sextet by divmod.
    rewrite a2b_base64_pad2. cbn [fmap option_fmap option_map].
    do 2 f_equal. octet.
  - pose proof (byte_to_Z_range a) as Ha. pose proof (byte_to_Z_range b) as Hb.
    cbn [b64encode]. cbv zeta.
    rewrite sextet0, sextet1, sextet2_last by assumption.
    rewrite !a2b_base64_sextet by divmod.
    rewrite a2b_base64_pad1. cbn [fmap option_fmap option_map].
    do 2 f_equal; [octet | f_equal; octet].
  - pose proof (byte_to_Z_range a) as Ha. pose proof (byte_to_Z_range b) as Hb.
    pose proof (byte_to_Z_range c) as Hc.
    cbn [b64encode]. unfold enc3.
    rewrite sextet0, sextet1, sextet2, sextet3 by assumption.
    rewrite !a2b_base64_sextet by divmod.
    rewrite IH. cbn [fmap option_fmap option_map].
    do 2 f_equal; [octet | f_equal; [octet | f_equal; octet]].
Qed.

Lemma is_ascii_b64encode (bs : list byte) : is_ascii_string (b64encode bs) = true.
Proof.
  unfold is_ascii_string.
  induction bs as [| a | a b | a b c rest IH] using list_ind3.
  - reflexivity.
  - pose proof (byte_to_Z_range a) as Ha.
    cbn [b64encode]. cbv zeta. rewrite sextet0, sextet1_last.
    cbn [list_ascii_of_string forallb].
    rewrite !b2a_ascii by divmod. reflexivity.
  - pose proof (byte_to_Z_range a) as Ha. pose proof (byte_to_Z_range b) as Hb.
    cbn [b64encode]. cbv zeta. rewrite sextet0, sextet1, sextet2_last by assumption.
    cbn [list_ascii_of_string forallb].
    rewrite !b2a_ascii by divmod. reflexivity.
  - pose proof (byte_to_Z_range a) as Ha. pose proof (byte_to_Z_range b) as Hb.
    pose proof (byte_to_Z_range c) as Hc.
    cbn [b64encode]. unfold enc3.
    rewrite sextet0, sextet1, sextet2, sextet3 by assumption.
    cbn [list_ascii_of_string forallb].
    rewrite !b2a_ascii by divmod. rewrite IH. reflexivity.
Qed.

Theorem b64decode_b64encode (bs : list byte) : b64decode (b64encode bs) = Some bs.
Proof.
  unfold b64decode. rewrite is_ascii_b64encode. apply a2b_base64_b64encode.
Qed.

Corollary b64encode_inj (bs1 bs2 : list byte) :
  b64encode bs1 = b64encode bs2 -> bs1 = bs2.
Proof.
  intros H. apply (f_equal b64decode) in H.
  rewrite !b64decode_b64encode in H. congruence.
Qed.

(** ** Reasoning about the monad *)

Lemma bind_Return {A B} (m : M A) (k : A -> M B) w a w1 :
  m w = (Return a, w1) -> bind m k w = k a w1.
Proof. intros H. unfold bind. rewrite H. reflexivity. Qed.

Lemma bind_Raise {A B} (m : M A) (k : A -> M B) w e w1 :
  m w = (Raise e, w1) -> bind m k w = (Raise e, w1).
Proof. intros H. unfold bind. rewrite H. reflexivity. Qed.

Lemma bind_inv {A B} (m : M A) (k : A -> M B) w r w' :
  bind m k w = (r, w') ->
  (exists a w1, m w = (Return a, w1) /\ k a w1 = (r, w')) \/
  (exists e, m w = (Raise e, w') /\ r = Raise e).
Proof.
  unfold bind. destruct (m w) as [[a | e] w1]; intros H.
  - left. eauto.
  - right. inversion H; subst. eauto.
Qed.

Lemma pure_keeps {A T} (f : World -> T) (m : M A) : pure m -> keeps f m.
Proof. intros H w. rewrite H. reflexivity. Qed.

Lemma keeps_atomic {A} (m : M A) : keeps files m -> atomic m.
Proof. intros H w e _. apply H. Qed.

Lemma pure_ret {A} (a : A) : pure (ret a).
Proof. intros w. reflexivity. Qed.

Lemma pure_raise {A} (e : Exn) : pure (@raise A e).
Proof. intros w. reflexivity. Qed.

Lemma pure_lift {A} (o : Outcome A) : pure (lift o).
Proof. intros w. reflexivity. Qed.

Lemma pure_bind {A B} (m : M A) (k : A -> M B) :
  pure m -> (forall a, pure (k a)) -> pure (bind m k).
Proof.
  intros Hm Hk w. unfold bind. specialize (Hm w).
  destruct (m w) as [[a | e] w1]; simpl in Hm; subst; [apply Hk | reflexivity].
Qed.

Lemma keeps_bind {A B T} (f : World -> T) (m : M A) (k : A -> M B) :
  keeps f m -> (forall a, keeps f (k a)) -> keeps f (bind m k).
Proof.
  intros Hm Hk w. unfold bind. specialize (Hm w).
  destruct (m w) as [[a | e] w1]; simpl in Hm; [| assumption].
  rewrite Hk. assumption.
Qed.

Lemma unfailing_ret {A} (a : A) : unfailing (ret a).
Proof. intros w. exists a. reflexivity. Qed.

Lemma unfailing_bind {A B} (m : M A) (k : A -> M B) :
  unfailing m -> (forall a, unfailing (k a)) -> unfailing (bind m k).
Proof.
  intros Hm Hk w. unfold bind. destruct (Hm w) as [a Ha].
  destruct (m w) as [[a' | e] w1]; simpl in Ha; [| discriminate].
  apply Hk.
Qed.

(** Raising is atomic when the first part keeps the files and the rest is
    atomic ... *)
Lemma atomic_bind {A B} (m : M A) (k : A -> M B) :
  keeps files m -> (forall a, atomic (k a)) -> atomic (bind m k).
Proof.
  intros Hm Hk w e. unfold bind. specialize (Hm w).
  destruct (m w) as [[a | e'] w1]; simpl in Hm; simpl.
  - intros H. rewrite (Hk a w1 e H). assumption.
  - intros _. assumption.
Qed.

(** ... or when the first part is atomic and nothing after it can raise. *)
Lemma atomic_bind_unfailing {A B} (m : M A) (k : A -> M B) :
  atomic m -> (forall a, unfailing (k a)) -> atomic (bind m k).
Proof.
  intros Hm Hk w e. unfold bind. specialize (Hm w).
  destruct (m w) as [[a | e'] w1]; simpl in Hm; simpl.
  - intros H. destruct (Hk a w1) as [b Hb]. congruence.
  - intros _. apply (Hm e'). reflexivity.
Qed.

Lemma pure_os_getenv name : pure (os_getenv name).
Proof. intros w. reflexivity. Qed.

Lemma pure_read_binary path : pure (read_binary path).
Proof. intros w. unfold read_binary. destruct (files w !! path); reflexivity. Qed.

Lemma pure_raise_for_status r : pure (raise_for_status r).
Proof. unfold raise_for_status. destruct (_ && _); [apply pure_raise | apply pure_ret]. Qed.

Lemma pure_response_json_of r : pure (response_json_of r).
Proof. unfold response_json_of. destruct (resp_json r); [apply pure_ret | apply pure_raise]. Qed.

Lemma pure_py_get v key d : pure (py_get v key d).
Proof. destruct v; first [apply pure_ret | apply pure_raise]. Qed.

Lemma pure_py_iter v : pure (py_iter v).
Proof. destruct v; first [apply pure_ret | apply pure_raise]. Qed.

Lemma pure_base64_b64decode v : pure (base64_b64decode v).
Proof.
  destruct v; try apply pure_raise. unfold base64_b64decode.
  destruct (Base64.b64decode s); [apply pure_ret |].
  destruct (Base64.is_ascii_string s); apply pure_raise.
Qed.

Lemma pure_resolve g name : pure (resolve g name).
Proof. unfold resolve. destruct (g !! name); [apply pure_ret | apply pure_raise]. Qed.

Lemma pure_json_attribute g attr : pure (json_attribute g attr).
Proof.
  unfold json_attribute. apply pure_bind; [apply pure_resolve |].
  intros [m | s | f]; try apply pure_raise.
  destruct (String.eqb m "json"); [apply pure_ret | apply pure_raise].
Qed.

Lemma pure_json_dumps g v : pure (json_dumps g v).
Proof.
  unfold json_dumps. apply pure_bind; [apply pure_json_attribute |].
  intros _. apply pure_ret.
Qed.

Lemma pure_source_to_base64 X img path msg : pure (source_to_base64 X img path msg).
Proof.
  unfold source_to_base64. destruct img as [im |].
  - apply pure_bind; [apply pure_lift | intros; apply pure_ret].
  - destruct path as [p |]; [| apply pure_raise].
    apply pure_bind; [apply pure_read_binary | intros; apply pure_ret].
Qed.

Lemma pure_for_each {A B} (f : A -> M B) (l : list A) :
  (forall x, pure (f x)) -> pure (for_each f l).
Proof.
  intros Hf. induction l as [| x rest IH]; cbn [for_each].
  - apply pure_ret.
  - apply pure_bind; [apply Hf | intros y].
    apply pure_bind; [apply IH | intros ys; apply pure_ret].
Qed.

Lemma print_keeps_files l : keeps files (print l).
Proof. intros w. reflexivity. Qed.

Lemma print_keeps_sent l : keeps sent (print l).
Proof. intros w. reflexivity. Qed.

Lemma print_unfailing l : unfailing (print l).
Proof. intros w. exists tt. reflexivity. Qed.

Lemma requests_post_keeps_files X req : keeps files (requests_post X req).
Proof. intros w. reflexivity. Qed.

Lemma file_write_keeps_sent path data : keeps sent (file_write path data).
Proof. intros w. reflexivity. Qed.

Lemma file_write_unfailing path data : unfailing (file_write path data).
Proof. intros w. exists tt. reflexivity. Qed.

Lemma open_for_writing_keeps_sent X path : keeps sent (open_for_writing X path).
Proof.
  intros w. unfold open_for_writing. destruct (can_open_for_writing X path); reflexivity.
Qed.

Lemma open_for_writing_atomic X path : atomic (open_for_writing X path).
Proof.
  intros w e. unfold open_for_writing.
  destruct (can_open_for_writing X path); [discriminate | reflexivity].
Qed.

Lemma bind_pure_inv {A B} (m : M A) (k : A -> M B) w r w' :
  pure m -> bind m k w = (r, w') ->
  (exists a, m w = (Return a, w) /\ k a w = (r, w')) \/
  (exists e, m w = (Raise e, w) /\ r = Raise e /\ w' = w).
Proof.
  intros Hp H. specialize (Hp w).
  apply bind_inv in H as [(a & w1 & Hm & H) | (e & Hm & ->)];
    rewrite Hm in Hp; cbn in Hp; subst; eauto.
Qed.

(** ** The first stage: credential and inputs *)

Lemma eqb_empty_false (k : string) : k <> "" -> String.eqb k "" = false.
Proof. intros H. apply String.eqb_neq. exact H. Qed.

Lemma source_to_base64_valid X w img path msg :
  source_valid X w img path ->
  exists t, source_to_base64 X img path msg w = (Return t, w) /\
            encoded_source X w img path t.
Proof.
  unfold source_valid, source_to_base64, encoded_source.
  destruct img as [im |].
  - intros [buffer Hb]. exists (Base64.b64encode buffer).
    unfold bind, lift. rewrite Hb. split; [reflexivity | eauto].
  - destruct path as [p |]; [| contradiction].
    intros [data Hd]. exists (Base64.b64encode data).
    unfold bind, read_binary. rewrite Hd. split; [reflexivity | eauto].
Qed.

Lemma source_to_base64_Return X w img path msg t w' :
  source_to_base64 X img path msg w = (Return t, w') ->
  w' = w /\ encoded_source X w img path t.
Proof.
  unfold source_to_base64, encoded_source. destruct img as [im |].
  - unfold bind, lift. destruct (cv2_imencode_png X im) as [png | e];
      intros H; inversion H; subst. split; [reflexivity | eauto].
  - destruct path as [p |]; [| discriminate].
    unfold bind, read_binary. destruct (files w !! p) as [data |] eqn:Hd;
      intros H; inversion H; subst. split; [reflexivity | eauto 6].
Qed.

Lemma encoded_source_valid X w img path t :
  encoded_source X w img path t -> source_valid X w img path.
Proof.
  unfold encoded_source, source_valid. destruct img as [im |].
  - intros (png & H & _). eauto.
  - intros (p & data & -> & H & _). rewrite H. eauto.
Qed.

Lemma inpainting_prepare_pure X a : pure (Inpainting.prepare X a).
Proof.
  unfold Inpainting.prepare. apply pure_bind; [apply pure_os_getenv |].
  intros [k |]; [| apply pure_raise].
  destruct (String.eqb k ""); [apply pure_raise |].
  apply pure_bind; [apply pure_source_to_base64 | intros ti].
  apply pure_bind; [apply pure_source_to_base64 | intros tm]. apply pure_ret.
Qed.

Lemma segmentation_prepare_pure X a : pure (Segmentation.prepare X a).
Proof.
  unfold Segmentation.prepare. apply pure_bind; [apply pure_os_getenv |].
  intros [k |]; [| apply pure_raise].
  destruct (String.eqb k ""); [apply pure_raise |].
  apply pure_bind; [apply pure_source_to_base64 | intros ti]. apply pure_ret.
Qed.

Lemma prepare_of_pure X c : pure (prepare_of X c).
Proof. destruct c; [apply inpainting_prepare_pure | apply segmentation_prepare_pure]. Qed.

(** The credential check comes first. *)
Lemma inpainting_prepare_unset X a w :
  credential_unset w ->
  Inpainting.prepare X a w = (Raise MissingCredentialError, w).
Proof.
  intros [H | H]; unfold Inpainting.prepare, bind, os_getenv; rewrite H; reflexivity.
Qed.

Lemma segmentation_prepare_unset X a w :
  credential_unset w ->
  Segmentation.prepare X a w = (Raise MissingCredentialError, w).
Proof.
  intros [H | H]; unfold Segmentation.prepare, bind, os_getenv; rewrite H; reflexivity.
Qed.

Lemma inpainting_prepare_set X a w k :
  environ w !! credential_variable = Some k -> k <> "" ->
  Inpainting.prepare X a w =
  (image_base64 <-
     source_to_base64 X (Inpainting.image a) (Inpainting.image_path a)
       "Either image or image_path must be provided." ;;
   mask_base64 <-
     source_to_base64 X (Inpainting.mask a) (Inpainting.mask_path a)
       "Either mask or mask_path must be provided." ;;
   ret {| api_key := k; endpoint_url := endpoint_url_of (Inpainting.endpoint_id a);
          payload := Inpainting.make_payload image_base64 mask_base64 |}) w.
Proof.
  intros Hk Hne. unfold Inpainting.prepare at 1. unfold bind at 1, os_getenv.
  rewrite Hk, (eqb_empty_false k Hne). reflexivity.
Qed.

Lemma segmentation_prepare_set X a w k :
  environ w !! credential_variable = Some k -> k <> "" ->
  Segmentation.prepare X a w =
  (image_base64 <-
     source_to_base64 X (Segmentation.image a) (Segmentation.image_path a)
       "Either image or image_path must be provided." ;;
   ret {| api_key := k; endpoint_url := endpoint_url_of (Segmentation.endpoint_id a);
          payload := Segmentation.make_payload image_base64 (Segmentation.class_names a) |}) w.
Proof.
  intros Hk Hne. unfold Segmentation.prepare at 1. unfold bind at 1, os_getenv.
  rewrite Hk, (eqb_empty_false k Hne). reflexivity.
Qed.

(** With the credential set and the sources valid the first stage
    succeeds. *)
Lemma prepare_of_valid X c w :
  credential_set w -> sources_valid X w c ->
  exists p, prepare_of X c w = (Return p, w).
Proof.
  intros (k & Hk & Hne) Hv. destruct c as [a | a]; cbn [prepare_of sources_valid] in *.
  - destruct Hv as [Hi Hm].
    destruct (source_to_base64_valid X w _ _ "Either image or image_path must be provided." Hi)
      as (ti & Hti & _).
    destruct (source_to_base64_valid X w _ _ "Either mask or mask_path must be provided." Hm)
      as (tm & Htm & _).
    rewrite (inpainting_prepare_set X a w k Hk Hne).
    rewrite (bind_Return _ _ _ _ _ Hti), (bind_Return _ _ _ _ _ Htm). eauto.
  - destruct (source_to_base64_valid X w _ _ "Either image or image_path must be provided." Hv)
      as (ti & Hti & _).
    rewrite (segmentation_prepare_set X a w k Hk Hne).
    rewrite (bind_Return _ _ _ _ _ Hti). eauto.
Qed.

(** ** The second stage: serialising the payload and posting it *)

Lemma inpainting_json_unbound : Inpainting.globals ∅ !! "json" = None.
Proof. vm_compute. reflexivity. Qed.

Lemma segmentation_json_unbound : Segmentation.globals ∅ !! "json" = None.
Proof. vm_compute. reflexivity. Qed.

Lemma json_attribute_unbound g attr w :
  g !! "json" = None -> json_attribute g attr w = (Raise (NameError "json"), w).
Proof.
  intros H. unfold json_attribute, bind, resolve. rewrite H. reflexivity.
Qed.

Lemma json_attribute_resolved g attr w :
  json_resolves g = true -> json_attribute g attr w = (Return tt, w).
Proof.
  unfold json_resolves, json_attribute, bind, resolve.
  destruct (g !! "json") as [[m | s | f] |]; try discriminate.
  intros H. cbn. rewrite H. reflexivity.
Qed.

Lemma json_attribute_unresolved g attr w :
  json_resolves g = false -> exists e, json_attribute g attr w = (Raise e, w).
Proof.
  unfold json_resolves, json_attribute, bind, resolve.
  destruct (g !! "json") as [[m | s | f] |]; cbn; eauto.
  intros H. rewrite H. eauto.
Qed.

Lemma json_dumps_unbound g v w :
  g !! "json" = None -> json_dumps g v w = (Raise (NameError "json"), w).
Proof.
  intros H. unfold json_dumps.
  apply bind_Raise, json_attribute_unbound, H.
Qed.

Lemma json_dumps_resolved g v w :
  json_resolves g = true -> json_dumps g v w = (Return (Json.dumps v), w).
Proof.
  intros H. unfold json_dumps.
  rewrite (bind_Return _ _ _ _ _ (json_attribute_resolved g "dumps" w H)).
  reflexivity.
Qed.

Lemma json_dumps_unresolved g v w :
  json_resolves g = false -> exists e, json_dumps g v w = (Raise e, w).
Proof.
  intros H. destruct (json_attribute_unresolved g "dumps" w H) as [e He].
  exists e. unfold json_dumps. apply bind_Raise, He.
Qed.

Lemma announce_sent dbg url w : sent (announce dbg url w) = sent w.
Proof. destruct dbg; reflexivity. Qed.

Lemma announce_files dbg url w : files (announce dbg url w) = files w.
Proof. destruct dbg; reflexivity. Qed.

Lemma inpainting_exchange_unbound X injected a p w :
  Inpainting.globals injected !! "json" = None ->
  Inpainting.exchange X injected a p w =
  (Raise (NameError "json"), announce (Inpainting.debug a) (endpoint_url p) w).
Proof.
  intros H. unfold Inpainting.exchange, announce, when.
  destruct (Inpainting.debug a); unfold json_dumps, bind, print, ret; cbv beta iota;
    rewrite json_attribute_unbound by exact H; reflexivity.
Qed.

Lemma segmentation_exchange_unbound X injected a p w :
  Segmentation.globals injected !! "json" = None ->
  Segmentation.exchange X injected a p w =
  (Raise (NameError "json"), announce (Segmentation.debug a) (endpoint_url p) w).
Proof.
  intros H. unfold Segmentation.exchange, announce, when.
  destruct (Segmentation.debug a); unfold json_dumps, bind, print, ret; cbv beta iota;
    rewrite json_attribute_unbound by exact H; reflexivity.
Qed.

Lemma inpainting_exchange_unresolved X injected a p w :
  json_resolves (Inpainting.globals injected) = false ->
  exists e, Inpainting.exchange X injected a p w =
            (Raise e, announce (Inpainting.debug a) (endpoint_url p) w).
Proof.
  intros H. unfold Inpainting.exchange, announce, when.
  destruct (Inpainting.debug a); unfold json_dumps, bind, print, ret; cbv beta iota;
    match goal with
    | |- context [json_attribute ?g ?attr ?w0] =>
        destruct (json_attribute_unresolved g attr w0 H) as [e He]; rewrite He
    end; eauto.
Qed.

Lemma segmentation_exchange_unresolved X injected a p w :
  json_resolves (Segmentation.globals injected) = false ->
  exists e, Segmentation.exchange X injected a p w =
            (Raise e, announce (Segmentation.debug a) (endpoint_url p) w).
Proof.
  intros H. unfold Segmentation.exchange, announce, when.
  destruct (Segmentation.debug a); unfold json_dumps, bind, print, ret; cbv beta iota;
    match goal with
    | |- context [json_attribute ?g ?attr ?w0] =>
        destruct (json_attribute_unresolved g attr w0 H) as [e He]; rewrite He
    end; eauto.
Qed.

(** When the name resolves, the request goes out and the stage ends as the
    transport answers. *)
Lemma inpainting_exchange_resolved X injected a p w :
  json_resolves (Inpainting.globals injected) = true ->
  exists w',
    Inpainting.exchange X injected a p w = (http_post X (request_of p), w') /\
    sent w' = (sent w ++ [request_of p])%list /\ files w' = files w.
Proof.
  intros H. unfold Inpainting.exchange, when.
  destruct (Inpainting.debug a); unfold json_dumps, bind, print, ret; cbv beta iota;
    rewrite !json_attribute_resolved by exact H; cbn;
    fold (request_of p); destruct (http_post X (request_of p)) as [r | e];
    cbn; eexists; split; try reflexivity; split; reflexivity.
Qed.

Lemma segmentation_exchange_resolved X injected a p w :
  json_resolves (Segmentation.globals injected) = true ->
  exists w',
    Segmentation.exchange X injected a p w = (http_post X (request_of p), w') /\
    sent w' = (sent w ++ [request_of p])%list /\ files w' = files w.
Proof.
  intros H. unfold Segmentation.exchange, when.
  destruct (Segmentation.debug a); unfold json_dumps, bind, print, ret; cbv beta iota;
    rewrite !json_attribute_resolved by exact H; cbn;
    fold (request_of p); destruct (http_post X (request_of p)) as [r | e];
    cbn; eexists; split; try reflexivity; split; reflexivity.
Qed.

Create HintDb frame.
#[local] Hint Resolve pure_ret pure_raise pure_lift pure_os_getenv pure_read_binary
  pure_raise_for_status pure_response_json_of pure_py_get pure_py_iter
  pure_base64_b64decode pure_resolve pure_json_attribute pure_json_dumps
  pure_source_to_base64 print_keeps_files print_keeps_sent
  requests_post_keeps_files file_write_keeps_sent open_for_writing_keeps_sent
  print_unfailing file_write_unfailing unfailing_ret open_for_writing_atomic
  : frame.

(** Walks down a straight-line computation, one bind or branch at a time. *)
Ltac frame :=
  repeat
    match goal with
    | |- pure (bind _ _) => apply pure_bind; [| intros ?]
    | |- keeps _ (bind _ _) => apply keeps_bind; [| intros ?]
    | |- unfailing (bind _ _) => apply unfailing_bind; [| intros ?]
    | |- _ (when ?b _) => unfold when
    | |- _ (if ?b then _ else _) => destruct b
    | |- keeps _ _ => first [ solve [auto with frame] | apply pure_keeps ]
    | |- atomic (bind (open_for_writing _ _) _) =>
        apply atomic_bind_unfailing; [| intros ?]
    | |- atomic (bind _ _) => apply atomic_bind; [| intros ?]
    | |- atomic _ => first [ solve [auto with frame] | apply keeps_atomic ]
    | |- pure _ => solve [auto with frame]
    | |- unfailing _ => solve [auto with frame]
    end.

(** ** The third stage: the response *)

Lemma inpainting_deliver_keeps_sent X a r : keeps sent (Inpainting.deliver X a r).
Proof. unfold Inpainting.deliver. frame. Qed.

Lemma inpainting_deliver_atomic X a r : atomic (Inpainting.deliver X a r).
Proof. unfold Inpainting.deliver. frame. Qed.

Lemma pure_decode_mask X v : pure (Segmentation.decode_mask X v).
Proof. unfold Segmentation.decode_mask. frame. Qed.

Lemma json_dump_keeps_sent g v path : keeps sent (json_dump g v path).
Proof. unfold json_dump. frame. Qed.

Lemma json_dump_unfailing g v path :
  json_resolves g = true -> unfailing (json_dump g v path).
Proof.
  intros H w. unfold json_dump.
  rewrite (bind_Return _ _ _ _ _ (json_attribute_resolved g "dump" w H)).
  apply file_write_unfailing.
Qed.

Lemma segmentation_deliver_keeps_sent X injected a r :
  keeps sent (Segmentation.deliver X injected a r).
Proof.
  unfold Segmentation.deliver. 
  pose proof (pure_decode_mask X) as Hd.
  pose proof (fun l => pure_for_each (Segmentation.decode_mask X) l Hd) as Hf.
  pose proof json_dump_keeps_sent.
  frame.
Qed.

Lemma segmentation_deliver_atomic X injected a r :
  json_resolves (Segmentation.globals injected) = true ->
  atomic (Segmentation.deliver X injected a r).
Proof.
  intros Hj. unfold Segmentation.deliver.
  pose proof (pure_decode_mask X) as Hd.
  pose proof (fun l => pure_for_each (Segmentation.decode_mask X) l Hd) as Hf.
  pose proof (fun v p => json_dump_unfailing _ v p Hj) as Hu.
  frame.
Qed.

(** ** A call as the sequence of its three stages *)

Lemma run_is_run_in X c : run X c = run_in X ∅ c.
Proof. destruct c; reflexivity. Qed.

Lemma run_in_stages X injected c w :
  run_in X injected c w =
  (p <- prepare_of X c ;;
   response <- exchange_of X injected c p ;;
   deliver_of X injected c response) w.
Proof.
  destruct c as [a | a]; cbn [run_in prepare_of exchange_of deliver_of];
    unfold Inpainting.inpaint_image_via_faas_in,
           Segmentation.segment_image_via_faas_in, fmap_M, bind.
  - destruct (Inpainting.prepare X a w) as [[p | e] w1]; [| reflexivity].
    destruct (Inpainting.exchange X injected a p w1) as [[r | e] w2]; reflexivity.
  - destruct (Segmentation.prepare X a w) as [[p | e] w1]; [| reflexivity].
    destruct (Segmentation.exchange X injected a p w1) as [[r | e] w2]; reflexivity.
Qed.

(** A call whose first stage raises ends there, the world untouched. *)
Lemma run_in_prepare_Raise X injected c w e :
  prepare_of X c w = (Raise e, w) -> run_in X injected c w = (Raise e, w).
Proof. intros H. rewrite run_in_stages. unfold bind at 1. rewrite H. reflexivity. Qed.

Lemma run_in_prepare_Return X injected c w p :
  prepare_of X c w = (Return p, w) ->
  run_in X injected c w =
  (response <- exchange_of X injected c p ;; deliver_of X injected c response) w.
Proof. intros H. rewrite run_in_stages. unfold bind at 1. rewrite H. reflexivity. Qed.

Lemma prepare_of_cases X c w :
  (exists e, prepare_of X c w = (Raise e, w)) \/
  (exists p, prepare_of X c w = (Return p, w)).
Proof.
  pose proof (prepare_of_pure X c w) as H.
  destruct (prepare_of X c w) as [[p | e] w1]; simpl in H; subst; eauto.
Qed.

Lemma exchange_of_unbound X injected c p w :
  globals_of injected c !! "json" = None ->
  exchange_of X injected c p w =
  (Raise (NameError "json"), announce (debug_of c) (endpoint_url p) w).
Proof.
  destruct c; [apply inpainting_exchange_unbound | apply segmentation_exchange_unbound].
Qed.

Lemma exchange_of_unresolved X injected c p w :
  json_resolves (globals_of injected c) = false ->
  exists e, exchange_of X injected c p w =
            (Raise e, announce (debug_of c) (endpoint_url p) w).
Proof.
  destruct c;
    [apply inpainting_exchange_unresolved | apply segmentation_exchange_unresolved].
Qed.

Lemma exchange_of_resolved X injected c p w :
  json_resolves (globals_of injected c) = true ->
  exists w',
    exchange_of X injected c p w = (http_post X (request_of p), w') /\
    sent w' = (sent w ++ [request_of p])%list /\ files w' = files w.
Proof.
  destruct c;
    [apply inpainting_exchange_resolved | apply segmentation_exchange_resolved].
Qed.

Lemma globals_of_plain c : globals_of ∅ c !! "json" = None.
Proof. destruct c; [apply inpainting_json_unbound | apply segmentation_json_unbound]. Qed.

Lemma fmap_M_keeps {A B T} (f : World -> T) (g : A -> B) (m : M A) :
  keeps f m -> keeps f (fmap_M g m).
Proof. intros H. unfold fmap_M. apply keeps_bind; [exact H | intros; apply pure_keeps, pure_ret]. Qed.

Lemma fmap_M_atomic {A B} (g : A -> B) (m : M A) : atomic m -> atomic (fmap_M g m).
Proof.
  intros H. unfold fmap_M. apply atomic_bind_unfailing; [exact H |].
  intros a. apply unfailing_ret.
Qed.

Lemma deliver_of_keeps_sent X injected c r : keeps sent (deliver_of X injected c r).
Proof.
  destruct c; apply fmap_M_keeps;
    [apply inpainting_deliver_keeps_sent | apply segmentation_deliver_keeps_sent].
Qed.

Lemma deliver_of_atomic X injected c r :
  json_resolves (globals_of injected c) = true -> atomic (deliver_of X injected c r).
Proof.
  intros H. destruct c; apply fmap_M_atomic;
    [apply inpainting_deliver_atomic | apply segmentation_deliver_atomic, H].
Qed.

(** A response in the error classes stops the third stage at once. *)
Lemma deliver_of_http_error X injected c r w :
  400 <= status_code r < 600 ->
  deliver_of X injected c r w = (Raise (HTTPError r), w).
Proof.
  intros H.
  assert (Hs : raise_for_status r w = (Raise (HTTPError r), w)).
  { unfold raise_for_status.
    replace ((400 <=? status_code r) && (status_code r <? 600)) with true;
      [reflexivity |].
    symmetry. apply andb_true_iff. split; [apply Z.leb_le | apply Z.ltb_lt]; lia. }
  destruct c; cbn [deliver_of]; unfold fmap_M;
    apply bind_Raise; [unfold Inpainting.deliver | unfold Segmentation.deliver];
    apply bind_Raise, Hs.
Qed.

Lemma run_in_course X injected c w r w' :
  run_in X injected c w = (r, w') -> Course X injected c w r w'.
Proof.
  destruct (prepare_of_cases X c w) as [[e Hp] | [p Hp]].
  - rewrite (run_in_prepare_Raise _ _ _ _ _ Hp). intros [= <- <-].
    apply course_unprepared, Hp.
  - rewrite (run_in_prepare_Return _ _ _ _ _ Hp).
    destruct (json_resolves (globals_of injected c)) eqn:Hj.
    + destruct (exchange_of_resolved X injected c p w Hj) as (w1 & He & Hs & Hf).
      destruct (http_post X (request_of p)) as [response | e] eqn:Hpost.
      * rewrite (bind_Return _ _ _ _ _ He). intros Hd.
        eapply course_answered; eauto.
      * rewrite (bind_Raise _ _ _ _ _ He). intros [= <- <-].
        eapply course_unanswered; eauto.
    + destruct (exchange_of_unresolved X injected c p w Hj) as (e & He).
      rewrite (bind_Raise _ _ _ _ _ He). intros [= <- <-].
      eapply course_unsent; eauto.
Qed.

(** ** Auxiliary facts about whole calls *)

Lemma app_singleton_neq {A} (l : list A) (x : A) : l <> (l ++ [x])%list.
Proof.
  intros H. apply (f_equal (@length A)) in H. rewrite length_app in H.
  cbn in H. lia.
Qed.

(** As the modules are loaded, the second stage always raises [NameError]. *)
Lemma run_after_prepare X c w p :
  prepare_of X c w = (Return p, w) ->
  run X c w = (Raise (NameError "json"), announce (debug_of c) (endpoint_url p) w).
Proof.
  intros Hp. rewrite run_is_run_in, (run_in_prepare_Return _ _ _ _ _ Hp).
  unfold bind at 1. rewrite (exchange_of_unbound X ∅ c p w (globals_of_plain c)).
  reflexivity.
Qed.

Lemma run_never_returns X c w : exists e w', run X c w = (Raise e, w').
Proof.
  destruct (prepare_of_cases X c w) as [[e Hp] | [p Hp]].
  - exists e, w. rewrite run_is_run_in. apply run_in_prepare_Raise, Hp.
  - eexists _, _. apply run_after_prepare, Hp.
Qed.

Lemma prepare_of_input_missing X c w e :
  credential_set w -> input_missing X w c e -> prepare_of X c w = (Raise e, w).
Proof.
  intros (k & Hk & Hne) Hm. destruct c as [a | a]; cbn [prepare_of input_missing] in *.
  - rewrite (inpainting_prepare_set X a w k Hk Hne).
    destruct Hm as [[[Hi Hp] ->] | (Hv & [Hi Hp] & ->)].
    + rewrite Hi, Hp. reflexivity.
    + destruct (source_to_base64_valid X w _ _
                  "Either image or image_path must be provided." Hv) as (ti & Hti & _).
      unfold bind at 1. rewrite Hti, Hi, Hp. reflexivity.
  - rewrite (segmentation_prepare_set X a w k Hk Hne).
    destruct Hm as [[Hi Hp] ->]. rewrite Hi, Hp. reflexivity.
Qed.

Lemma raise_for_status_accepted response w :
  status_accepted response -> raise_for_status response w = (Return tt, w).
Proof. unfold status_accepted, raise_for_status. intros ->. reflexivity. Qed.

Lemma response_json_of_Some response parsed w :
  resp_json response = Some parsed ->
  response_json_of response w = (Return parsed, w).
Proof. unfold response_json_of. intros ->. reflexivity. Qed.

(** The output of the segmentation client for an image given by path: the
    decoded response, serialised again. *)
Lemma segmentation_deliver_by_path X injected a response w v w' :
  Segmentation.image a = None ->
  json_resolves (Segmentation.globals injected) = true ->
  Segmentation.deliver X injected a response w = (Return v, w') ->
  v = None /\ sent w' = sent w /\
  exists parsed,
    resp_json response = Some parsed /\
    files w' = <[Segmentation.output_path a := bytes_of_string (Json.dumps parsed)]> (files w).
Proof.
  intros Hi Hj. unfold Segmentation.deliver. rewrite Hi. cbn [is_not_None].
  unfold raise_for_status, response_json_of, json_dump.
  destruct ((400 <=? status_code response) && (status_code response <? 600));
    [discriminate |].
  unfold bind at 1. cbn.
  destruct (resp_json response) as [parsed |]; [| discriminate].
  unfold bind at 1. cbn.
  unfold bind at 1, open_for_writing.
  destruct (can_open_for_writing X (Segmentation.output_path a)); [| discriminate].
  unfold bind at 1. unfold bind at 1. rewrite json_attribute_resolved by exact Hj.
  cbn. intros [= <- <-]. cbn. repeat split.
  exists parsed. split; [reflexivity |].
  rewrite lookup_insert_eq. cbn. apply insert_insert_eq.
Qed.

Lemma example_credential_set : credential_set example_world.
Proof. exists "secret". split; [reflexivity | discriminate]. Defined.

(** ** What the third stage is written to do *)

(** A response without a usable [output_image] is refused. *)
Lemma inpainting_deliver_empty_result X a response fields w :
  status_accepted response ->
  resp_json response = Some (JObj fields) ->
  Json.truthy (Json.dict_get fields "output_image" (JStr "")) = false ->
  Inpainting.deliver X a response w = (Raise EmptyResultError, w).
Proof.
  intros Hs Hj Ht. unfold Inpainting.deliver.
  erewrite bind_Return by (apply raise_for_status_accepted, Hs).
  erewrite bind_Return by (apply response_json_of_Some, Hj).
  do 2 (erewrite bind_Return by reflexivity).
  rewrite Ht. reflexivity.
Qed.

(** The output of the inpainting client: an image is handed back when the
    image or the mask came in memory, and the decoded bytes go to the
    destination file otherwise. *)
Lemma inpainting_deliver_dispatch X a response w v w' :
  Inpainting.deliver X a response w = (Return v, w') ->
  exists fields data,
    resp_json response = Some (JObj fields) /\
    base64_b64decode (Json.dict_get fields "output_image" (JStr "")) w = (Return data, w) /\
    sent w' = sent w /\
    if is_not_None (Inpainting.image a) || is_not_None (Inpainting.mask a)
    then cv2_imdecode_color X data = Return v /\ files w' = files w
    else v = None /\ files w' = <[Inpainting.output_path a := data]> (files w).
Proof.
  unfold Inpainting.deliver. intros H.
  apply bind_pure_inv in H as [([] & _ & H) | (e & _ & He & _)];
    [| discriminate | apply pure_raise_for_status].
  apply bind_pure_inv in H as [(parsed & H2 & H) | (e & _ & He & _)];
    [| discriminate | apply pure_response_json_of].
  unfold response_json_of in H2.
  destruct (resp_json response) as [parsed' |]; [| discriminate].
  injection H2 as ->.
  apply bind_pure_inv in H as [(out & H3 & H) | (e & _ & He & _)];
    [| discriminate | apply pure_py_get].
  destruct parsed as [| | | | | | fields]; try discriminate. injection H3 as <-.
  apply bind_pure_inv in H as [(stats & H4 & H) | (e & _ & He & _)];
    [| discriminate | apply pure_py_get].
  injection H4 as <-.
  destruct (negb (Json.truthy (Json.dict_get fields "output_image" (JStr ""))));
    [discriminate |].
  apply bind_pure_inv in H as [(data & H5 & H) | (e & _ & He & _)];
    [| discriminate | apply pure_base64_b64decode].
  exists fields, data. split; [reflexivity |]. split; [exact H5 |].
  apply bind_inv in H as [([] & w1 & H6 & H) | (e & _ & He)]; [| discriminate].
  assert (Hk : sent w1 = sent w /\ files w1 = files w).
  { assert (K1 : keeps sent (when (Inpainting.debug a)
        (inference_time <- py_get (Json.dict_get fields "stats" (JObj [])) "inference_time" (JStr "N/A") ;;
         print (Line_inference_time inference_time) ;;
         overall_time <- py_get (Json.dict_get fields "stats" (JObj [])) "overall_time" (JStr "N/A") ;;
         print (Line_overall_time overall_time) ;;
         print Line_frontend_time))) by frame.
    assert (K2 : keeps files (when (Inpainting.debug a)
        (inference_time <- py_get (Json.dict_get fields "stats" (JObj [])) "inference_time" (JStr "N/A") ;;
         print (Line_inference_time inference_time) ;;
         overall_time <- py_get (Json.dict_get fields "stats" (JObj [])) "overall_time" (JStr "N/A") ;;
         print (Line_overall_time overall_time) ;;
         print Line_frontend_time))) by frame.
    specialize (K1 w). specialize (K2 w). rewrite H6 in K1, K2. auto. }
  destruct Hk as [Hks Hkf].
  destruct (is_not_None (Inpainting.image a) || is_not_None (Inpainting.mask a)).
  - unfold bind, lift, ret in H.
    destruct (cv2_imdecode_color X data) as [im | e]; [| discriminate].
    injection H as <- <-. auto.
  - unfold bind, open_for_writing, file_write, print, ret in H.
    destruct (can_open_for_writing X (Inpainting.output_path a)); [| discriminate].
    injection H as <- <-. cbn. rewrite lookup_insert_eq, insert_insert_eq, Hkf. auto.
Qed.

(** An empty or absent list of masks is a success with no masks. *)
Lemma segmentation_deliver_no_masks X injected a im response fields w :
  Segmentation.image a = Some im ->
  status_accepted response ->
  resp_json response = Some (JObj fields) ->
  Json.dict_get fields "masks" (JArr []) = JArr [] ->
  Segmentation.deliver X injected a response w =
  (Return (Some {| Segmentation.masks := [];
                   Segmentation.bounding_boxes :=
                     Json.dict_get fields "bounding_boxes" (JArr []) |}), w).
Proof.
  intros Hi Hs Hj Hm. unfold Segmentation.deliver.
  erewrite bind_Return by (apply raise_for_status_accepted, Hs).
  erewrite bind_Return by (apply response_json_of_Some, Hj).
  rewrite Hi. cbn [is_not_None].
  erewrite bind_Return by reflexivity.
  rewrite Hm. reflexivity.
Qed.

(** With [json] put into the namespace, the example calls do what the
    docstrings say. *)
Example inpainting_by_path_with_json :
  exists w',
    Inpainting.inpaint_image_via_faas_in (example_externals (Return response_output))
      with_json inpaint_by_path example_world = (Return None, w') /\
    files w' !! "result.png" = Some [x4d].
Proof. eexists. split; vm_compute; reflexivity. Qed.

Example inpainting_empty_output_with_json :
  exists w',
    Inpainting.inpaint_image_via_faas_in
      (example_externals (Return response_empty_output))
      with_json inpaint_by_path example_world = (Raise EmptyResultError, w') /\
    files w' = files example_world.
Proof. eexists. split; vm_compute; reflexivity. Qed.

Example segmentation_no_masks_with_json :
  exists w',
    Segmentation.segment_image_via_faas_in
      (example_externals (Return response_no_masks))
      with_json segment_in_memory example_world =
    (Return (Some {| Segmentation.masks := []; Segmentation.bounding_boxes := JArr [] |}),
     w').
Proof. eexists. vm_compute. reflexivity. Qed.

(** ** The claims *)

(** *** C1 *)

(** Claim C1.  With the credential set and every source valid, a call of
    either client, as the modules are loaded, raises [NameError] for the
    name [json] when it comes to serialise the payload: no request has been
    handed to the transport and no file has changed.  Hence no call of
    either client ever returns, whatever its arguments and the world. *)
Theorem json_name_error_before_request X c w :
  credential_set w -> sources_valid X w c ->
  (exists w',
     run X c w = (Raise (NameError "json"), w') /\
     sent w' = sent w /\ files w' = files w) /\
  (forall X0 c0 w0, exists e w1, run X0 c0 w0 = (Raise e, w1)).
Proof.
  intros Hc Hv. split; [| intros; apply run_never_returns].
  destruct (prepare_of_valid X c w Hc Hv) as [p Hp].
  exists (announce (debug_of c) (endpoint_url p) w).
  rewrite (run_after_prepare X c w p Hp), announce_sent, announce_files. auto.
Qed.

(** Witness of C1: paths to two existing files, the credential set. *)
Lemma json_name_error_witness :
  (exists w',
     run (example_externals (Return response_output)) (Inpaint inpaint_by_path)
       example_world = (Raise (NameError "json"), w') /\
     sent w' = sent example_world /\ files w' = files example_world) /\
  (forall X0 c0 w0, exists e w1, run X0 c0 w0 = (Raise e, w1)).
Proof.
  apply json_name_error_before_request.
  - exact example_credential_set.
  - split; eexists; reflexivity.
Defined.

(** *** C2 *)

(** Claim C2, as far as the code goes.  When the first stage succeeds, the
    payload holds, for the image (and the mask of the inpainting client),
    the base64 text of the PNG bytes OpenCV makes of an in-memory image, and
    the base64 text of the bytes of the file, as they are, for a source
    given by path. *)
Theorem payload_encoding X c w p w' :
  prepare_of X c w = (Return p, w') ->
  match c with
  | Inpaint a =>
      exists image_base64 mask_base64,
        payload p = Inpainting.make_payload image_base64 mask_base64 /\
        encoded_source X w (Inpainting.image a) (Inpainting.image_path a) image_base64 /\
        encoded_source X w (Inpainting.mask a) (Inpainting.mask_path a) mask_base64
  | Segment a =>
      exists image_base64,
        payload p = Segmentation.make_payload image_base64 (Segmentation.class_names a) /\
        encoded_source X w (Segmentation.image a) (Segmentation.image_path a) image_base64
  end.
Proof.
  destruct c as [a | a]; cbn [prepare_of].
  - unfold Inpainting.prepare. unfold bind at 1, os_getenv.
    destruct (environ w !! credential_variable) as [k |]; [| discriminate].
    destruct (String.eqb k ""); [discriminate |].
    intros H. apply bind_inv in H as [(ti & w1 & Hi & H) | (e & _ & He)]; [| discriminate].
    apply source_to_base64_Return in Hi as [-> Hi].
    apply bind_inv in H as [(tm & w2 & Hm & H) | (e & _ & He)]; [| discriminate].
    apply source_to_base64_Return in Hm as [-> Hm].
    injection H as <- <-. exists ti, tm. auto.
  - unfold Segmentation.prepare. unfold bind at 1, os_getenv.
    destruct (environ w !! credential_variable) as [k |]; [| discriminate].
    destruct (String.eqb k ""); [discriminate |].
    intros H. apply bind_inv in H as [(ti & w1 & Hi & H) | (e & _ & He)]; [| discriminate].
    apply source_to_base64_Return in Hi as [-> Hi].
    injection H as <- <-. exists ti. auto.
Qed.

(** Witness of C2: both sources given by path. *)
Lemma payload_encoding_witness :
  exists image_base64 mask_base64,
    Inpainting.make_payload "/9j/4A==" "iVBORw0KGgo=" =
    Inpainting.make_payload image_base64 mask_base64 /\
    encoded_source (example_externals (Return response_output)) example_world
      None (Some "photo.jpg") image_base64 /\
    encoded_source (example_externals (Return response_output)) example_world
      None (Some "mask.png") mask_base64.
Proof.
  apply (payload_encoding (example_externals (Return response_output))
           (Inpaint inpaint_by_path) example_world
           {| api_key := "secret";
              endpoint_url := endpoint_url_of Inpainting.RUNPOD_ENDPOINT_ID;
              payload := Inpainting.make_payload "/9j/4A==" "iVBORw0KGgo=" |}
           example_world).
  vm_compute. reflexivity.
Defined.

(** Counterexample to C2 as stated: a file that starts like a JPEG file is
    sent as it is.  The text under [image] is the base64 encoding of no
    byte string that starts with the PNG signature. *)
Lemma file_source_is_not_png_normalised :
  exists p,
    Inpainting.prepare (example_externals (Return response_output)) inpaint_by_path
      example_world = (Return p, example_world) /\
    input_text (payload p) "image" = Some "/9j/4A==" /\
    forall data, has_png_signature data = true -> Base64.b64encode data <> "/9j/4A==".
Proof.
  eexists. split; [vm_compute; reflexivity |]. split; [reflexivity |].
  intros data Hsig Heq.
  change "/9j/4A==" with (Base64.b64encode [xff; xd8; xff; xe0]) in Heq.
  apply b64encode_inj in Heq. subst data. discriminate Hsig.
Qed.

(** *** C3 *)

(** Claim C3 on the modules as loaded.  Against a service that would
    answer 200 with an output image, a call with both sources by path and a
    call with both in memory raise [NameError]: nothing is returned and the
    world, its files among it, stays as it was. *)
Theorem inpainting_call_never_delivers :
  Inpainting.inpaint_image_via_faas (example_externals (Return response_output))
    inpaint_by_path example_world = (Raise (NameError "json"), example_world) /\
  Inpainting.inpaint_image_via_faas (example_externals (Return response_output))
    inpaint_in_memory example_world = (Raise (NameError "json"), example_world).
Proof. split; vm_compute; reflexivity. Qed.

(** *** C4 *)

(** Claim C4, as far as the code goes.  A segmentation call for an image
    given by path that returns has returned [None], has posted one request,
    and has written to the destination the text [json.dump] makes of the
    decoded answer. *)
Theorem segmentation_output_is_reserialised X injected a w v w' :
  Segmentation.segment_image_via_faas_in X injected a w = (Return v, w') ->
  Segmentation.image a = None ->
  v = None /\
  exists req response parsed,
    sent w' = (sent w ++ [req])%list /\
    http_post X req = Return response /\
    resp_json response = Some parsed /\
    files w' =
      <[Segmentation.output_path a := bytes_of_string (Json.dumps parsed)]> (files w).
Proof.
  intros H Hi.
  assert (Hrun : run_in X injected (Segment a) w = (Return (Segmented v), w')).
  { cbn [run_in]. unfold fmap_M, bind. rewrite H. reflexivity. }
  apply run_in_course in Hrun.
  inversion Hrun as [| | | p response w1 r w2 Hp Hj Hpost Hs Hf Hd]; subst.
  cbn [deliver_of globals_of] in *. unfold fmap_M in Hd.
  apply bind_inv in Hd as [(v0 & w2 & Hd & Hret) | (e & _ & He)]; [| discriminate].
  injection Hret as -> ->.
  destruct (segmentation_deliver_by_path X injected a response w1 v w' Hi Hj Hd)
    as (-> & Hsent & parsed & Hparsed & Hfiles).
  split; [reflexivity |].
  exists (request_of p), response, parsed.
  rewrite Hsent, Hs, Hfiles, Hf. auto.
Qed.

(** Witness of C4: [json] put into the namespace, an answer with no
    masks. *)
Lemma segmentation_output_witness :
  exists w',
    Segmentation.segment_image_via_faas_in
      (example_externals (Return response_no_masks)) with_json segment_by_path
      example_world = (Return None, w') /\
    exists req response parsed,
      sent w' = (sent example_world ++ [req])%list /\
      http_post (example_externals (Return response_no_masks)) req = Return response /\
      resp_json response = Some parsed /\
      files w' =
        <[Segmentation.output_path segment_by_path :=
            bytes_of_string (Json.dumps parsed)]> (files example_world).
Proof.
  eexists. split; [vm_compute; reflexivity |].
  eapply (segmentation_output_is_reserialised
            (example_externals (Return response_no_masks)) with_json segment_by_path
            example_world None).
  - vm_compute. reflexivity.
  - reflexivity.
Defined.

(** Counterexample to C4 as stated: the body arrives without blanks after
    its separators, and the file does not hold the body. *)
Lemma written_text_differs_from_body :
  exists w',
    Segmentation.segment_image_via_faas_in
      (example_externals (Return response_no_masks)) with_json segment_by_path
      example_world = (Return None, w') /\
    sent w' = [request_of
                 {| api_key := "secret";
                    endpoint_url := endpoint_url_of Segmentation.RUNPOD_ENDPOINT_ID;
                    payload := Segmentation.make_payload "/9j/4A==" None |}] /\
    files w' !! "result.json" <> Some (bytes_of_string (text response_no_masks)).
Proof.
  eexists. split; [vm_compute; reflexivity |]. split; [reflexivity |].
  vm_compute. discriminate.
Qed.

(** *** C5 *)

(** Claim C5, as far as the code goes.  With the credential set, a call
    whose image has no source, or (inpainting) whose image was acquired and
    whose mask has no source, raises the error for the missing input and
    leaves the world as it was: nothing is sent. *)
Theorem missing_input_before_request X c w e :
  credential_set w -> input_missing X w c e ->
  run X c w = (Raise e, w) /\ is_MissingInputError e.
Proof.
  intros Hc Hm. split.
  - rewrite run_is_run_in. apply run_in_prepare_Raise, prepare_of_input_missing; assumption.
  - destruct c; cbn in Hm; unfold is_MissingInputError; intuition.
Qed.

(** Witness of C5: the image is an existing file, the mask is not given. *)
Lemma missing_input_witness :
  run (example_externals (Return response_output)) (Inpaint inpaint_no_mask)
    example_world = (Raise MissingMaskError, example_world) /\
  is_MissingInputError MissingMaskError.
Proof.
  apply missing_input_before_request.
  - exact example_credential_set.
  - right. split; [eexists; reflexivity |]. split; [split; reflexivity | reflexivity].
Defined.

(** Counterexample to C5 as stated: the credential is set and no mask is
    given, but the image names a file that does not exist; opening it fails
    first. *)
Lemma missing_file_comes_before_missing_mask :
  credential_set example_world /\
  source_absent (Inpainting.mask inpaint_missing_file)
    (Inpainting.mask_path inpaint_missing_file) /\
  run (example_externals (Return response_output)) (Inpaint inpaint_missing_file)
    example_world = (Raise (FileNotFoundError "missing.png"), example_world) /\
  ~ is_MissingInputError (FileNotFoundError "missing.png").
Proof.
  split; [exact example_credential_set |].
  split; [split; reflexivity |].
  split; [vm_compute; reflexivity |].
  intros [H | H]; discriminate H.
Qed.

(** *** C6 *)

(** Claim C6.  With the credential variable unset or empty, a call of
    either client raises the error for the missing credential and leaves
    the world as it was: nothing is sent. *)
Theorem missing_credential X c w :
  credential_unset w -> run X c w = (Raise MissingCredentialError, w).
Proof.
  intros H. rewrite run_is_run_in. apply run_in_prepare_Raise.
  destruct c; [apply inpainting_prepare_unset | apply segmentation_prepare_unset]; exact H.
Qed.

(** Witness of C6: an empty environment. *)
Lemma missing_credential_witness :
  run (example_externals (Return response_output)) (Segment segment_by_path)
    example_world_no_credential =
  (Raise MissingCredentialError, example_world_no_credential).
Proof. apply missing_credential. left. reflexivity. Defined.

(** *** C7 *)

(** Claim C7 on the modules as loaded.  Against a service that would
    answer 200 with an empty [output_image], the inpainting call raises
    [NameError], which is not the error for an empty result. *)
Theorem empty_output_is_never_seen :
  Inpainting.inpaint_image_via_faas (example_externals (Return response_empty_output))
    inpaint_by_path example_world = (Raise (NameError "json"), example_world) /\
  Raise (A := option Image) (NameError "json") <> Raise EmptyResultError.
Proof. split; [vm_compute; reflexivity | discriminate]. Qed.

(** *** C8 *)

(** Claim C8 on the modules as loaded.  Against a service that would
    answer 200 with an empty list of masks, the segmentation call with an
    in-memory image raises [NameError] and returns nothing. *)
Theorem empty_masks_are_never_seen :
  Segmentation.segment_image_via_faas (example_externals (Return response_no_masks))
    segment_in_memory example_world = (Raise (NameError "json"), example_world).
Proof. vm_compute. reflexivity. Qed.

(** *** C9 *)

(** Claim C9, as far as the code goes.  When a call of either client has
    posted its request and the answer has a status from 400 to 599, the
    call raises [HTTPError] carrying that answer, and so its status code. *)
Theorem http_error_on_4xx_5xx X injected c w r w' req response :
  run_in X injected c w = (r, w') ->
  sent w' = (sent w ++ [req])%list ->
  http_post X req = Return response ->
  400 <= status_code response < 600 ->
  r = Raise (HTTPError response) /\ is_HttpError (HTTPError response) (status_code response).
Proof.
  intros H Hsent Hpost Hcode. split; [| exists response; auto].
  apply run_in_course in H.
  inversion H as [e0 Hp | p e0 Hp Hj He | p e0 w1 Hp Hj Hpost' Hs Hf
                  | p response' w1 r' w2 Hp Hj Hpost' Hs Hf Hd]; subst.
  - destruct (app_singleton_neq _ _ Hsent).
  - rewrite announce_sent in Hsent. destruct (app_singleton_neq _ _ Hsent).
  - rewrite Hs in Hsent. apply app_inj_tail in Hsent as [_ <-]. congruence.
  - pose proof (deliver_of_keeps_sent X injected c response' w1) as Hk.
    rewrite Hd in Hk. cbn in Hk. rewrite Hk, Hs in Hsent.
    apply app_inj_tail in Hsent as [_ <-].
    assert (response' = response) as -> by congruence.
    rewrite deliver_of_http_error in Hd by assumption. congruence.
Qed.

(** Witness of C9: [json] put into the namespace, an answer with status
    500. *)
Lemma http_error_witness :
  fst (run_in (example_externals (Return response_500)) with_json
         (Segment segment_in_memory) example_world) = Raise (HTTPError response_500).
Proof.
  apply (http_error_on_4xx_5xx (example_externals (Return response_500)) with_json
           (Segment segment_in_memory) example_world _
           (snd (run_in (example_externals (Return response_500)) with_json
                   (Segment segment_in_memory) example_world))
           (request_of
              {| api_key := "secret";
                 endpoint_url := endpoint_url_of Segmentation.RUNPOD_ENDPOINT_ID;
                 payload :=
                   Segmentation.make_payload
                     (Base64.b64encode (png_signature ++ pixels example_image))
                     (Some ["cat"]) |})
           response_500).
  - vm_compute. reflexivity.
  - vm_compute. reflexivity.
  - reflexivity.
  - cbn. lia.
Defined.

(** Counterexample to C9 as stated: an answer with status 304 is not
    refused for its status; the call goes on to decode the body. *)
Lemma status_304_is_not_refused :
  exists req w',
    run_in (example_externals (Return response_304)) with_json
      (Inpaint inpaint_by_path) example_world = (Raise JSONDecodeError, w') /\
    sent w' = (sent example_world ++ [req])%list /\
    http_post (example_externals (Return response_304)) req = Return response_304 /\
    ~ (200 <= status_code response_304 < 300) /\
    forall code, ~ is_HttpError JSONDecodeError code.
Proof.
  eexists _, _. split; [vm_compute; reflexivity |].
  split; [reflexivity |]. split; [reflexivity |].
  split; [cbn; lia |].
  intros code (response & H & _). discriminate H.
Qed.

(** *** C10 *)

(** Claim C10.  A call of either client that raises leaves every file as
    it was, in whatever namespace the module runs. *)
Theorem no_partial_output X injected c w e w' :
  run_in X injected c w = (Raise e, w') -> files w' = files w.
Proof.
  intros H. apply run_in_course in H.
  inversion H as [e0 Hp | p e0 Hp Hj He | p e0 w1 Hp Hj Hpost Hs Hf
                  | p response w1 r w2 Hp Hj Hpost Hs Hf Hd]; subst.
  - reflexivity.
  - apply announce_files.
  - assumption.
  - pose proof (deliver_of_atomic X injected c response Hj w1 e) as Ha.
    rewrite Hd in Ha. cbn in Ha. rewrite Ha by reflexivity. assumption.
Qed.

(** Witness of C10: a call of the inpainting client as the module is
    loaded. *)
Lemma no_partial_output_witness :
  files (snd (run_in (example_externals (Return response_output)) ∅
                (Inpaint inpaint_by_path) example_world)) = files example_world.
Proof.
  apply (no_partial_output (example_externals (Return response_output)) ∅
           (Inpaint inpaint_by_path) example_world (NameError "json")).
  vm_compute. reflexivity.
Defined.

(** * Beyond the claims *)

Lemma status_200_accepted response : status_code response = 200 -> status_accepted response.
Proof. unfold status_accepted. intros ->. reflexivity. Defined.

(** ** More about the first stage *)

(** What the first stage hands on: the key of the environment and the URL of
    the endpoint. *)
Lemma prepare_of_Return X c w p w' :
  prepare_of X c w = (Return p, w') ->
  w' = w /\ environ w !! credential_variable = Some (api_key p) /\
  api_key p <> "" /\ endpoint_url p = endpoint_url_of (endpoint_id_of c).
Proof.
  intros H. pose proof (prepare_of_pure X c w) as Hw. rewrite H in Hw. cbn in Hw.
  subst w'. split; [reflexivity |].
  destruct c as [a | a]; cbn [prepare_of endpoint_id_of] in H.
  - unfold Inpainting.prepare in H. unfold bind at 1, os_getenv in H.
    destruct (environ w !! credential_variable) as [k |]; [| discriminate].
    destruct (String.eqb k "") eqn:Hk; [discriminate |].
    apply String.eqb_neq in Hk.
    apply bind_inv in H as [(ti & w1 & _ & H) | (e & _ & He)]; [| discriminate].
    apply bind_inv in H as [(tm & w2 & _ & H) | (e & _ & He)]; [| discriminate].
    injection H as <- _. auto.
  - unfold Segmentation.prepare in H. unfold bind at 1, os_getenv in H.
    destruct (environ w !! credential_variable) as [k |]; [| discriminate].
    destruct (String.eqb k "") eqn:Hk; [discriminate |].
    apply String.eqb_neq in Hk.
    apply bind_inv in H as [(ti & w1 & _ & H) | (e & _ & He)]; [| discriminate].
    injection H as <- _. auto.
Qed.

(** What the first stage puts into the payload. *)
Lemma prepare_of_payload X c w p w' :
  prepare_of X c w = (Return p, w') ->
  match c with
  | Inpaint a =>
      exists image_base64 mask_base64,
        payload p = Inpainting.make_payload image_base64 mask_base64 /\
        encoded_source X w (Inpainting.image a) (Inpainting.image_path a) image_base64 /\
        encoded_source X w (Inpainting.mask a) (Inpainting.mask_path a) mask_base64
  | Segment a =>
      exists image_base64,
        payload p = Segmentation.make_payload image_base64 (Segmentation.class_names a) /\
        encoded_source X w (Segmentation.image a) (Segmentation.image_path a) image_base64
  end.
Proof.
  destruct c as [a | a]; cbn [prepare_of].
  - unfold Inpainting.prepare. unfold bind at 1, os_getenv.
    destruct (environ w !! credential_variable) as [k |]; [| discriminate].
    destruct (String.eqb k ""); [discriminate |].
    intros H. apply bind_inv in H as [(ti & w1 & Hi & H) | (e & _ & He)]; [| discriminate].
    apply source_to_base64_Return in Hi as [-> Hi].
    apply bind_inv in H as [(tm & w2 & Hm & H) | (e & _ & He)]; [| discriminate].
    apply source_to_base64_Return in Hm as [-> Hm].
    injection H as <- <-. exists ti, tm. auto.
  - unfold Segmentation.prepare. unfold bind at 1, os_getenv.
    destruct (environ w !! credential_variable) as [k |]; [| discriminate].
    destruct (String.eqb k ""); [discriminate |].
    intros H. apply bind_inv in H as [(ti & w1 & Hi & H) | (e & _ & He)]; [| discriminate].
    apply source_to_base64_Return in Hi as [-> Hi].
    injection H as <- <-. exists ti. auto.
Qed.

Lemma source_to_base64_fails X w img path msg e :
  source_fails X w img path e ->
  source_to_base64 X img path msg w = (Raise e, w).
Proof.
  unfold source_fails, source_to_base64. destruct img as [im |].
  - intros H. unfold bind, lift. rewrite H. reflexivity.
  - intros (p & -> & Hp & ->). unfold bind, read_binary. rewrite Hp. reflexivity.
Qed.

Lemma prepare_of_acquisition_fails X c w e :
  credential_set w -> acquisition_fails X w c e -> prepare_of X c w = (Raise e, w).
Proof.
  intros (k & Hk & Hne) Hf. destruct c as [a | a]; cbn [prepare_of acquisition_fails] in *.
  - rewrite (inpainting_prepare_set X a w k Hk Hne).
    destruct Hf as [Hf | [Hv Hf]].
    + unfold bind at 1. rewrite (source_to_base64_fails _ _ _ _ _ _ Hf). reflexivity.
    + destruct (source_to_base64_valid X w _ _
                  "Either image or image_path must be provided." Hv) as (ti & Hti & _).
      unfold bind at 1. rewrite Hti.
      unfold bind at 1. rewrite (source_to_base64_fails _ _ _ _ _ _ Hf). reflexivity.
  - rewrite (segmentation_prepare_set X a w k Hk Hne).
    unfold bind at 1. rewrite (source_to_base64_fails _ _ _ _ _ _ Hf). reflexivity.
Qed.


(** Extra X2.  With the credential set, the first failure a call meets while it
    acquires its inputs (OpenCV refusing an in-memory image, or a path that
    names no file, which is [FileNotFoundError]) is the exception of the call:
    the functions catch nothing, and the world is as it was. *)
Theorem acquisition_error_propagates X c w e :
  credential_set w -> acquisition_fails X w c e -> run X c w = (Raise e, w).
Proof.
  intros Hc Hf. rewrite run_is_run_in.
  apply run_in_prepare_Raise, prepare_of_acquisition_fails; assumption.
Qed.

(** Witness of X2: the image path names no file. *)
Lemma acquisition_error_witness :
  run (example_externals (Return response_output)) (Inpaint inpaint_missing_file)
    example_world = (Raise (FileNotFoundError "missing.png"), example_world).
Proof.
  apply acquisition_error_propagates.
  - exact example_credential_set.
  - left. exists "missing.png". split; [reflexivity |]. split; reflexivity.
Defined.

(** Extra X3.  In whatever namespace, a call of either function hands the
    transport no request or exactly one.  That one goes to
    [https://api.runpod.ai/v2/<endpoint_id>/runsync], carries the headers
    [Content-Type: application/json] and [Authorization: Bearer <key>], the
    key being the value of [RUNPOD_API_KEY] in the environment, and has the
    serialised payload as its body. *)
Theorem at_most_one_request X injected c w :
  sent (snd (run_in X injected c w)) = sent w \/
  exists p,
    prepare_of X c w = (Return p, w) /\
    environ w !! credential_variable = Some (api_key p) /\
    sent (snd (run_in X injected c w)) =
    (sent w ++
     [{| req_url := endpoint_url_of (endpoint_id_of c);
         req_headers := [("Content-Type", "application/json");
                         ("Authorization", ("Bearer " ++ api_key p)%string)];
         req_data := Json.dumps (payload p) |}])%list.
Proof.
  destruct (run_in X injected c w) as [r w'] eqn:H. cbn [snd].
  apply run_in_course in H.
  inversion H as [e0 Hp | p e0 Hp Hj He | p e0 w1 Hp Hj Hpost Hs Hf
                  | p response w1 r' w2 Hp Hj Hpost Hs Hf Hd]; subst.
  - left. reflexivity.
  - left. apply announce_sent.
  - right. exists p. destruct (prepare_of_Return X c w p w Hp) as (_ & Hk & _ & Hurl).
    rewrite Hs. unfold request_of, request_headers. rewrite Hurl. auto.
  - right. exists p. destruct (prepare_of_Return X c w p w Hp) as (_ & Hk & _ & Hurl).
    pose proof (deliver_of_keeps_sent X injected c response w1) as Hkeep.
    rewrite Hd in Hkeep. cbn in Hkeep. rewrite Hkeep, Hs.
    unfold request_of, request_headers. rewrite Hurl. auto.
Qed.

(** Extra X4.  An exception of the transport for the request a call has posted
    (a refused connection, say) is the exception of the call, and no file has
    changed. *)
Theorem transport_error_propagates X injected c w r w' req e :
  run_in X injected c w = (r, w') ->
  sent w' = (sent w ++ [req])%list ->
  http_post X req = Raise e ->
  r = Raise e /\ files w' = files w.
Proof.
  intros H Hsent Hpost. apply run_in_course in H.
  inversion H as [e0 Hp | p e0 Hp Hj He | p e0 w1 Hp Hj Hpost' Hs Hf
                  | p response w1 r' w2 Hp Hj Hpost' Hs Hf Hd]; subst.
  - destruct (app_singleton_neq _ _ Hsent).
  - rewrite announce_sent in Hsent. destruct (app_singleton_neq _ _ Hsent).
  - rewrite Hs in Hsent. apply app_inj_tail in Hsent as [_ <-].
    split; [congruence | assumption].
  - pose proof (deliver_of_keeps_sent X injected c response w1) as Hk.
    rewrite Hd in Hk. cbn in Hk. rewrite Hk, Hs in Hsent.
    apply app_inj_tail in Hsent as [_ <-]. congruence.
Qed.

(** Witness of X4: a transport that refuses every connection. *)
Lemma transport_error_witness :
  fst (run_in (failing_externals (RequestException "connection refused")) with_json
         (Inpaint inpaint_by_path) example_world) =
    Raise (RequestException "connection refused") /\
  files (snd (run_in (failing_externals (RequestException "connection refused"))
                with_json (Inpaint inpaint_by_path) example_world)) =
    files example_world.
Proof.
  apply (transport_error_propagates
           (failing_externals (RequestException "connection refused")) with_json
           (Inpaint inpaint_by_path) example_world _ _
           (request_of
              {| api_key := "secret";
                 endpoint_url := endpoint_url_of Inpainting.RUNPOD_ENDPOINT_ID;
                 payload := Inpainting.make_payload "/9j/4A==" "iVBORw0KGgo=" |})).
  - vm_compute. reflexivity.
  - vm_compute. reflexivity.
  - reflexivity.
Defined.

(** ** What a call leaves alone *)

Lemma print_keeps_environ l : keeps environ (print l).
Proof. intros w. reflexivity. Qed.

Lemma requests_post_keeps_environ X req : keeps environ (requests_post X req).
Proof. intros w. reflexivity. Qed.

Lemma file_write_keeps_environ path data : keeps environ (file_write path data).
Proof. intros w. reflexivity. Qed.

Lemma open_for_writing_keeps_environ X path : keeps environ (open_for_writing X path).
Proof.
  intros w. unfold open_for_writing. destruct (can_open_for_writing X path); reflexivity.
Qed.

Lemma print_keeps_file l (q : string) : keeps (fun w => files w !! q) (print l).
Proof. intros w. reflexivity. Qed.

Lemma requests_post_keeps_file X req (q : string) :
  keeps (fun w => files w !! q) (requests_post X req).
Proof. intros w. reflexivity. Qed.

Lemma file_write_keeps_file path data (q : string) :
  q <> path -> keeps (fun w => files w !! q) (file_write path data).
Proof. intros Hq w. cbn. apply lookup_insert_ne. congruence. Qed.

Lemma open_for_writing_keeps_file X path (q : string) :
  q <> path -> keeps (fun w => files w !! q) (open_for_writing X path).
Proof.
  intros Hq w. unfold open_for_writing.
  destruct (can_open_for_writing X path); [| reflexivity].
  cbn. apply lookup_insert_ne. congruence.
Qed.

Lemma pure_for_each_decode_mask X items :
  pure (for_each (Segmentation.decode_mask X) items).
Proof. apply pure_for_each, pure_decode_mask. Qed.

#[local] Hint Resolve print_keeps_environ requests_post_keeps_environ
  file_write_keeps_environ open_for_writing_keeps_environ print_keeps_file
  requests_post_keeps_file file_write_keeps_file open_for_writing_keeps_file
  pure_for_each_decode_mask inpainting_prepare_pure segmentation_prepare_pure
  : frame.

Lemma json_dump_keeps_environ g v path : keeps environ (json_dump g v path).
Proof. unfold json_dump. frame. Qed.

Lemma json_dump_keeps_file g v path (q : string) :
  q <> path -> keeps (fun w => files w !! q) (json_dump g v path).
Proof. intros Hq. unfold json_dump. frame. Qed.

#[local] Hint Resolve json_dump_keeps_environ json_dump_keeps_file : frame.

Lemma run_in_keeps_environ X injected c : keeps environ (run_in X injected c).
Proof.
  destruct c as [a | a]; cbn [run_in];
    unfold fmap_M, Inpainting.inpaint_image_via_faas_in,
      Segmentation.segment_image_via_faas_in, Inpainting.exchange,
      Segmentation.exchange, Inpainting.deliver, Segmentation.deliver, json_dumps;
    frame.
Qed.

Lemma run_in_keeps_file X injected c (q : string) :
  q <> output_path_of c -> keeps (fun w => files w !! q) (run_in X injected c).
Proof.
  intros Hq.
  destruct c as [a | a]; cbn [run_in output_path_of] in *;
    unfold fmap_M, Inpainting.inpaint_image_via_faas_in,
      Segmentation.segment_image_via_faas_in, Inpainting.exchange,
      Segmentation.exchange, Inpainting.deliver, Segmentation.deliver, json_dumps;
    frame.
Qed.

Lemma run_in_in_memory_keeps_files X injected c :
  returns_in_memory c = true -> keeps files (run_in X injected c).
Proof.
  intros Hm.
  destruct c as [a | a]; cbn [run_in returns_in_memory] in *;
    unfold fmap_M, Inpainting.inpaint_image_via_faas_in,
      Segmentation.segment_image_via_faas_in, Inpainting.exchange,
      Segmentation.exchange, Inpainting.deliver, Segmentation.deliver, json_dumps;
    rewrite Hm; frame.
Qed.

(** Extra X5.  What a call of either function leaves alone, in whatever namespace
    and however it ends: the environment; every file but the one at
    [output_path]; and every file, when the call is given an image in memory
    (for the inpainting client an image or a mask). *)
Theorem call_frame X injected c w :
  environ (snd (run_in X injected c w)) = environ w /\
  (forall q : string,
     q <> output_path_of c ->
     files (snd (run_in X injected c w)) !! q = files w !! q) /\
  (returns_in_memory c = true -> files (snd (run_in X injected c w)) = files w).
Proof.
  split; [apply run_in_keeps_environ |]. split.
  - intros q Hq. apply (run_in_keeps_file X injected c q Hq w).
  - intros Hm. apply (run_in_in_memory_keeps_files X injected c Hm w).
Qed.

(** ** How the stages compose *)

Lemma exchange_of_keeps_environ X injected c p :
  keeps environ (exchange_of X injected c p).
Proof.
  destruct c as [a | a]; cbn [exchange_of];
    unfold Inpainting.exchange, Segmentation.exchange, json_dumps; frame.
Qed.

(** Extra X6.  How the stages compose.  In a namespace where [json] resolves, a
    call whose first stage succeeds and whose request the transport answers
    ends exactly as the third stage ends on that answer, started in a world
    that differs from the initial one by the posted request, and by printed
    lines, only. *)
Theorem answered_call_ends_as_third_stage X injected c w p response :
  prepare_of X c w = (Return p, w) ->
  json_resolves (globals_of injected c) = true ->
  http_post X (request_of p) = Return response ->
  exists w1,
    run_in X injected c w = deliver_of X injected c response w1 /\
    environ w1 = environ w /\ files w1 = files w /\
    sent w1 = (sent w ++ [request_of p])%list.
Proof.
  intros Hp Hj Hpost.
  destruct (exchange_of_resolved X injected c p w Hj) as (w1 & He & Hs & Hf).
  rewrite Hpost in He. exists w1.
  rewrite (run_in_prepare_Return _ _ _ _ _ Hp), (bind_Return _ _ _ _ _ He).
  pose proof (exchange_of_keeps_environ X injected c p w) as Henv.
  rewrite He in Henv. cbn in Henv. auto.
Qed.

(** Witness of X6: the call by path of the examples, in a namespace that has
    [json]. *)
Lemma answered_call_witness :
  exists w1,
    run_in (example_externals (Return response_output)) with_json
      (Inpaint inpaint_by_path) example_world =
    deliver_of (example_externals (Return response_output)) with_json
      (Inpaint inpaint_by_path) response_output w1 /\
    environ w1 = environ example_world /\ files w1 = files example_world /\
    sent w1 =
    (sent example_world ++
     [request_of
        {| api_key := "secret";
           endpoint_url := endpoint_url_of Inpainting.RUNPOD_ENDPOINT_ID;
           payload := Inpainting.make_payload "/9j/4A==" "iVBORw0KGgo=" |}])%list.
Proof.
  apply (answered_call_ends_as_third_stage
           (example_externals (Return response_output)) with_json
           (Inpaint inpaint_by_path) example_world
           {| api_key := "secret";
              endpoint_url := endpoint_url_of Inpainting.RUNPOD_ENDPOINT_ID;
              payload := Inpainting.make_payload "/9j/4A==" "iVBORw0KGgo=" |}
           response_output).
  - vm_compute. reflexivity.
  - vm_compute. reflexivity.
  - reflexivity.
Defined.

(** ** The body of the request *)

(** No character of the base64 alphabet needs escaping in a JSON string. *)
Lemma escape_char_b2a (i : Z) :
  0 <= i < 64 -> Json.escape_char (b2a i) = String (b2a i) "".
Proof.
  intros Hi. rewrite <- (Z2Nat.id i) by lia.
  assert (Hn : (Z.to_nat i < 64)%nat) by lia.
  generalize dependent (Z.to_nat i). clear Hi. intros n Hn.
  do 64 (destruct n as [| n]; [vm_compute; reflexivity |]).
  lia.
Qed.

Lemma escape_char_pad : Json.escape_char pad = String pad "".
Proof. reflexivity. Qed.

Lemma escape_b64encode (bs : list byte) :
  Json.escape (b64encode bs) = b64encode bs.
Proof.
  induction bs as [| a | a b | a b c rest IH] using list_ind3.
  - reflexivity.
  - pose proof (byte_to_Z_range a) as Ha.
    cbn [b64encode]. cbv zeta. rewrite sextet0, sextet1_last.
    cbn [Json.escape]. rewrite !escape_char_b2a by divmod.
    rewrite !escape_char_pad. reflexivity.
  - pose proof (byte_to_Z_range a) as Ha. pose proof (byte_to_Z_range b) as Hb.
    cbn [b64encode]. cbv zeta. rewrite sextet0, sextet1, sextet2_last by assumption.
    cbn [Json.escape]. rewrite !escape_char_b2a by divmod.
    rewrite !escape_char_pad. reflexivity.
  - pose proof (byte_to_Z_range a) as Ha. pose proof (byte_to_Z_range b) as Hb.
    pose proof (byte_to_Z_range c) as Hc.
    cbn [b64encode]. unfold enc3.
    rewrite sextet0, sextet1, sextet2, sextet3 by assumption.
    cbn [Json.escape]. rewrite !escape_char_b2a by divmod. rewrite IH. reflexivity.
Qed.

Lemma append_assoc_s (a b c : string) : (a ++ b) ++ c = a ++ (b ++ c).
Proof.
  induction a as [| ch a IH]; [reflexivity |].
  change (String ch ((a ++ b) ++ c) = String ch (a ++ (b ++ c))).
  f_equal. exact IH.
Qed.

Lemma quote_b64encode (bs : list byte) :
  Json.quote (b64encode bs) = quoted (b64encode bs).
Proof. unfold Json.quote, quoted. rewrite escape_b64encode. reflexivity. Qed.

(** The text a source is encoded to is base64 text. *)
Lemma encoded_source_b64 X w img path t :
  encoded_source X w img path t -> exists bs, t = b64encode bs.
Proof.
  unfold encoded_source. destruct img as [im |].
  - intros (png & _ & ->). eauto.
  - intros (p & data & _ & _ & ->). eauto.
Qed.

Lemma dumps_inpainting_payload (bi bm : list byte) :
  Json.dumps (Inpainting.make_payload (b64encode bi) (b64encode bm)) =
  inpainting_body (b64encode bi) (b64encode bm).
Proof.
  unfold Inpainting.make_payload, inpainting_body. cbn [Json.dumps].
  rewrite !quote_b64encode.
  generalize (b64encode bi) (b64encode bm). intros ti tm.
  unfold quoted. rewrite ?append_assoc_s. reflexivity.
Qed.

Lemma dumps_segmentation_payload (bi : list byte) class_names :
  Json.dumps (Segmentation.make_payload (b64encode bi) class_names) =
  segmentation_body (b64encode bi) class_names.
Proof.
  unfold Segmentation.make_payload, segmentation_body.
  generalize (Segmentation.class_names_json class_names). intros names.
  cbn [Json.dumps]. rewrite !quote_b64encode.
  generalize (b64encode bi) (Json.dumps names). intros ti tn.
  unfold quoted. rewrite ?append_assoc_s. reflexivity.
Qed.

(** Extra X7.  The body of the request, character for character.  When the first
    stage succeeds, the body is the text [json.dumps] gives with its default
    separators for the dictionary with the one key [input]: under it [image]
    and [mask] for the inpainting client, [image] and [class_names] for the
    segmentation client.  The base64 texts of the sources stand in it between
    quotes without any escape; the class names are [null] or a JSON list of
    strings. *)
Theorem request_body X c w p w' :
  prepare_of X c w = (Return p, w') ->
  match c with
  | Inpaint a =>
      exists image_base64 mask_base64,
        encoded_source X w (Inpainting.image a) (Inpainting.image_path a) image_base64 /\
        encoded_source X w (Inpainting.mask a) (Inpainting.mask_path a) mask_base64 /\
        req_data (request_of p) = inpainting_body image_base64 mask_base64
  | Segment a =>
      exists image_base64,
        encoded_source X w (Segmentation.image a) (Segmentation.image_path a) image_base64 /\
        req_data (request_of p) =
        segmentation_body image_base64 (Segmentation.class_names a)
  end.
Proof.
  intros H. pose proof (prepare_of_payload X c w p w' H) as Hp.
  destruct c as [a | a].
  - destruct Hp as (ti & tm & Hpay & Hi & Hm). exists ti, tm.
    split; [exact Hi |]. split; [exact Hm |].
    destruct (encoded_source_b64 _ _ _ _ _ Hi) as [bi ->].
    destruct (encoded_source_b64 _ _ _ _ _ Hm) as [bm ->].
    cbn [request_of req_data]. rewrite Hpay. apply dumps_inpainting_payload.
  - destruct Hp as (ti & Hpay & Hi). exists ti. split; [exact Hi |].
    destruct (encoded_source_b64 _ _ _ _ _ Hi) as [bi ->].
    cbn [request_of req_data]. rewrite Hpay. apply dumps_segmentation_payload.
Qed.

(** Witness of X7: both sources given by path. *)
Lemma request_body_witness :
  exists image_base64 mask_base64,
    encoded_source (example_externals (Return response_output)) example_world
      None (Some "photo.jpg") image_base64 /\
    encoded_source (example_externals (Return response_output)) example_world
      None (Some "mask.png") mask_base64 /\
    Json.dumps (Inpainting.make_payload "/9j/4A==" "iVBORw0KGgo=") =
    inpainting_body image_base64 mask_base64.
Proof.
  apply (request_body (example_externals (Return response_output))
           (Inpaint inpaint_by_path) example_world
           {| api_key := "secret";
              endpoint_url := endpoint_url_of Inpainting.RUNPOD_ENDPOINT_ID;
              payload := Inpainting.make_payload "/9j/4A==" "iVBORw0KGgo=" |}
           example_world).
  vm_compute. reflexivity.
Defined.

(** ** More about the third stage *)

(** A loop over a list: the results come in the order of the items, and one
    failure ends the loop. *)
Lemma for_each_Return {A B} (f : A -> M B) (l : list A) w ys w' :
  (forall x, pure (f x)) ->
  for_each f l w = (Return ys, w') ->
  w' = w /\ Forall2 (fun x y => f x w = (Return y, w)) l ys.
Proof.
  intros Hf. revert ys. induction l as [| x rest IH]; intros ys H; cbn [for_each] in H.
  - injection H as <- <-. split; [reflexivity | constructor].
  - apply bind_pure_inv in H as [(y & Hy & H) | (e & _ & He & _)];
      [| discriminate | apply Hf].
    apply bind_inv in H as [(ys' & w1 & Hrest & H) | (e & _ & He)]; [| discriminate].
    injection H as <- <-.
    destruct (IH ys' Hrest) as [-> Hall].
    split; [reflexivity | constructor; assumption].
Qed.

Lemma b64encode_nonempty (bs : list byte) : bs <> [] -> b64encode bs <> "".
Proof.
  destruct bs as [| a [| b [| c rest]]]; [congruence | | |]; intros _; discriminate.
Qed.

(** Extra X8.  The third stage of the inpainting client refuses an accepted answer
    whose [output_image] is missing or falsy: [ValueError] with the message
    [No output image in the response.], the world unchanged. *)
Theorem empty_result_is_refused X a response fields w :
  status_accepted response ->
  resp_json response = Some (JObj fields) ->
  Json.truthy (Json.dict_get fields "output_image" (JStr "")) = false ->
  Inpainting.deliver X a response w = (Raise EmptyResultError, w).
Proof. apply inpainting_deliver_empty_result. Qed.

(** Witness of X8: an answer with an empty [output_image]. *)
Lemma empty_result_witness :
  Inpainting.deliver (example_externals (Return response_empty_output))
    inpaint_by_path response_empty_output example_world =
  (Raise EmptyResultError, example_world).
Proof.
  apply (empty_result_is_refused _ _ _ [("output_image", JStr "")]).
  - apply status_200_accepted. reflexivity.
  - reflexivity.
  - reflexivity.
Defined.

(** Extra X9.  When the third stage of the inpainting client returns, the answer
    was a dictionary whose [output_image] decoded from base64; with an image
    or a mask in memory the result is what OpenCV makes of the decoded bytes
    and no file has changed; otherwise the result is [None] and the file at
    [output_path] holds exactly the decoded bytes.  No request is sent. *)
Theorem inpainting_output_dispatch X a response w v w' :
  Inpainting.deliver X a response w = (Return v, w') ->
  exists fields data,
    resp_json response = Some (JObj fields) /\
    base64_b64decode (Json.dict_get fields "output_image" (JStr "")) w = (Return data, w) /\
    sent w' = sent w /\
    if is_not_None (Inpainting.image a) || is_not_None (Inpainting.mask a)
    then cv2_imdecode_color X data = Return v /\ files w' = files w
    else v = None /\ files w' = <[Inpainting.output_path a := data]> (files w).
Proof. apply inpainting_deliver_dispatch. Qed.

(** Witness of X9: a call by path; the decoded byte goes to [result.png]. *)
Lemma inpainting_output_witness :
  exists fields data,
    resp_json response_output = Some (JObj fields) /\
    base64_b64decode (Json.dict_get fields "output_image" (JStr "")) example_world =
      (Return data, example_world) /\
    sent (snd (Inpainting.deliver (example_externals (Return response_output))
                 inpaint_by_path response_output example_world)) = sent example_world /\
    @None Image = None /\
    files (snd (Inpainting.deliver (example_externals (Return response_output))
                  inpaint_by_path response_output example_world)) =
      <["result.png" := data]> (files example_world).
Proof.
  apply (inpainting_output_dispatch (example_externals (Return response_output))
           inpaint_by_path response_output example_world None).
  vm_compute. reflexivity.
Defined.

(** Extra X10.  Round trip through both encodings.  For a call by path on a
    non-empty image file, if the service sends back as [output_image] the
    very text the payload carries for the image, the third stage writes to
    [output_path] the bytes of the image file, byte for byte. *)
Theorem echo_round_trip X a w p source data response fields :
  Inpainting.prepare X a w = (Return p, w) ->
  Inpainting.image a = None ->
  Inpainting.mask a = None ->
  Inpainting.image_path a = Some source ->
  files w !! source = Some data ->
  data <> [] ->
  Inpainting.debug a = false ->
  can_open_for_writing X (Inpainting.output_path a) = true ->
  status_accepted response ->
  resp_json response = Some (JObj fields) ->
  (exists t, input_text (payload p) "image" = Some t /\
             Json.dict_get fields "output_image" (JStr "") = JStr t) ->
  exists w',
    Inpainting.deliver X a response w = (Return None, w') /\
    files w' = <[Inpainting.output_path a := data]> (files w).
Proof.
  intros Hp Hi Hm Hpath Hdata Hne Hdbg Hopen Hs Hj (t & Ht & Hout).
  destruct (prepare_of_payload X (Inpaint a) w p w Hp) as (ti & tm & Hpay & Hei & _).
  rewrite Hi, Hpath in Hei. destruct Hei as (p0 & data0 & [= <-] & Hd0 & ->).
  rewrite Hdata in Hd0. injection Hd0 as <-.
  rewrite Hpay in Ht. cbn in Ht. injection Ht as <-.
  unfold Inpainting.deliver.
  erewrite bind_Return by (apply raise_for_status_accepted, Hs).
  erewrite bind_Return by (apply response_json_of_Some, Hj).
  do 2 (erewrite bind_Return by reflexivity).
  rewrite Hout. cbn [Json.truthy].
  rewrite (proj2 (String.eqb_neq _ _) (b64encode_nonempty data Hne)). cbn [negb].
  unfold base64_b64decode. rewrite b64decode_b64encode.
  erewrite bind_Return by reflexivity.
  rewrite Hdbg, Hi, Hm. cbn [when is_not_None orb].
  erewrite bind_Return by reflexivity.
  unfold bind, open_for_writing, file_write, print, ret. rewrite Hopen. cbn.
  eexists. split; [reflexivity |]. cbn.
  rewrite lookup_insert_eq, insert_insert_eq. reflexivity.
Qed.

(** Witness of X10: the service sends back the four bytes of [photo.jpg]. *)
Lemma echo_round_trip_witness :
  exists w',
    Inpainting.deliver (example_externals (Return response_echo)) inpaint_by_path
      response_echo example_world = (Return None, w') /\
    files w' = <["result.png" := [xff; xd8; xff; xe0]]> (files example_world).
Proof.
  apply (echo_round_trip (example_externals (Return response_echo)) inpaint_by_path
           example_world
           {| api_key := "secret";
              endpoint_url := endpoint_url_of Inpainting.RUNPOD_ENDPOINT_ID;
              payload := Inpainting.make_payload "/9j/4A==" "iVBORw0KGgo=" |}
           "photo.jpg" [xff; xd8; xff; xe0] response_echo
           [("output_image", JStr "/9j/4A==")]).
  - vm_compute. reflexivity.
  - reflexivity.
  - reflexivity.
  - reflexivity.
  - reflexivity.
  - discriminate.
  - reflexivity.
  - reflexivity.
  - apply status_200_accepted. reflexivity.
  - reflexivity.
  - exists "/9j/4A==". split; reflexivity.
Defined.

(** Extra X11.  When the third stage of the segmentation client returns for an
    image in memory, the world is unchanged, the result is a dictionary, its
    [masks] are the items of the answer's [masks] decoded one by one in the
    order of the answer (an item OpenCV cannot read gives [None]), and its
    [bounding_boxes] are the answer's, untouched, or the empty list. *)
Theorem segmentation_masks_in_order X injected a im response w res w' :
  Segmentation.image a = Some im ->
  Segmentation.deliver X injected a response w = (Return res, w') ->
  w' = w /\
  exists fields items result,
    res = Some result /\
    resp_json response = Some (JObj fields) /\
    py_iter (Json.dict_get fields "masks" (JArr [])) w = (Return items, w) /\
    Forall2 (fun item m => Segmentation.decode_mask X item w = (Return m, w))
      items (Segmentation.masks result) /\
    Segmentation.bounding_boxes result =
      Json.dict_get fields "bounding_boxes" (JArr []).
Proof.
  intros Hi. unfold Segmentation.deliver. rewrite Hi. cbn [is_not_None]. intros H.
  apply bind_pure_inv in H as [([] & _ & H) | (e & _ & He & _)];
    [| discriminate | apply pure_raise_for_status].
  apply bind_pure_inv in H as [(parsed & H2 & H) | (e & _ & He & _)];
    [| discriminate | apply pure_response_json_of].
  unfold response_json_of in H2.
  destruct (resp_json response) as [parsed' |]; [| discriminate].
  injection H2 as ->.
  apply bind_pure_inv in H as [(mv & H3 & H) | (e & _ & He & _)];
    [| discriminate | apply pure_py_get].
  destruct parsed as [| | | | | | fields]; try discriminate. injection H3 as <-.
  apply bind_pure_inv in H as [(items & H4 & H) | (e & _ & He & _)];
    [| discriminate | apply pure_py_iter].
  apply bind_inv in H as [(ms & w1 & H5 & H) | (e & _ & He)]; [| discriminate].
  apply for_each_Return in H5 as [-> Hall]; [| apply pure_decode_mask].
  unfold bind at 1 in H. cbn in H. injection H as <- <-.
  split; [reflexivity |].
  eexists fields, items, _. repeat split; eauto.
Qed.

(** Witness of X11: two masks, the second of which is no image. *)
Lemma segmentation_masks_witness :
  snd (Segmentation.deliver (example_externals (Return response_two_masks)) ∅
         segment_in_memory response_two_masks example_world) = example_world /\
  exists fields items result,
    fst (Segmentation.deliver (example_externals (Return response_two_masks)) ∅
           segment_in_memory response_two_masks example_world) = Return (Some result) /\
    resp_json response_two_masks = Some (JObj fields) /\
    py_iter (Json.dict_get fields "masks" (JArr [])) example_world =
      (Return items, example_world) /\
    Forall2
      (fun item m =>
         Segmentation.decode_mask (example_externals (Return response_two_masks)) item
           example_world = (Return m, example_world))
      items (Segmentation.masks result) /\
    Segmentation.bounding_boxes result =
      Json.dict_get fields "bounding_boxes" (JArr []).
Proof.
  destruct (segmentation_masks_in_order
              (example_externals (Return response_two_masks)) ∅ segment_in_memory
              example_image response_two_masks example_world
              (Some {| Segmentation.masks :=
                         [Some {| rows := 1; cols := 1; channels := 3; pixels := [x10] |};
                          None];
                       Segmentation.bounding_boxes :=
                         JArr [JArr [JInt 0; JInt 0; JInt 1; JInt 1]] |})
              example_world eq_refl)
    as (Hw & fields & items & result & Hres & Hj & Hit & Hall & Hb).
  - vm_compute. reflexivity.
  - split; [vm_compute; reflexivity |].
    exists fields, items, result. split; [| auto].
    rewrite <- Hres. vm_compute. reflexivity.
Defined.

(** Extra X12.  For an image in memory, an accepted answer with no [masks] or an
    empty list of them is no error for the segmentation client: the result
    has an empty list of masks, and the world is unchanged. *)
Theorem absent_masks_are_no_error X injected a im response fields w :
  Segmentation.image a = Some im ->
  status_accepted response ->
  resp_json response = Some (JObj fields) ->
  Json.dict_get fields "masks" (JArr []) = JArr [] ->
  Segmentation.deliver X injected a response w =
  (Return (Some {| Segmentation.masks := [];
                   Segmentation.bounding_boxes :=
                     Json.dict_get fields "bounding_boxes" (JArr []) |}), w).
Proof. apply segmentation_deliver_no_masks. Qed.

(** Witness of X12: an answer without [masks]. *)
Lemma absent_masks_witness :
  Segmentation.deliver (example_externals (Return response_output)) ∅
    segment_in_memory response_output example_world =
  (Return (Some {| Segmentation.masks := []; Segmentation.bounding_boxes := JArr [] |}),
   example_world).
Proof.
  apply (absent_masks_are_no_error _ ∅ segment_in_memory example_image response_output
           [("output_image", JStr "TQ==")]).
  - reflexivity.
  - apply status_200_accepted. reflexivity.
  - reflexivity.
  - reflexivity.
Defined.

(** Extra X13.  A debugging call of the inpainting client needs [stats] to be a
    dictionary: when the accepted answer carries a usable output image and a
    [stats] that is none, the third stage raises [AttributeError] before
    anything is written or returned. *)
Theorem debug_needs_stats_dict X a response fields data w :
  status_accepted response ->
  resp_json response = Some (JObj fields) ->
  Json.truthy (Json.dict_get fields "output_image" (JStr "")) = true ->
  base64_b64decode (Json.dict_get fields "output_image" (JStr "")) w = (Return data, w) ->
  is_object (Json.dict_get fields "stats" (JObj [])) = false ->
  Inpainting.debug a = true ->
  Inpainting.deliver X a response w = (Raise (AttributeError "get"), w).
Proof.
  intros Hs Hj Ht Hd Ho Hdbg. unfold Inpainting.deliver.
  erewrite bind_Return by (apply raise_for_status_accepted, Hs).
  erewrite bind_Return by (apply response_json_of_Some, Hj).
  do 2 (erewrite bind_Return by reflexivity).
  rewrite Ht. cbn [negb].
  erewrite bind_Return by exact Hd.
  rewrite Hdbg. cbn [when].
  apply bind_Raise. apply bind_Raise.
  destruct (Json.dict_get fields "stats" (JObj [])); try reflexivity; discriminate.
Qed.

(** Witness of X13: an answer whose [stats] is [null]. *)
Lemma debug_needs_stats_witness :
  Inpainting.deliver (example_externals (Return response_null_stats)) inpaint_debug
    response_null_stats example_world = (Raise (AttributeError "get"), example_world).
Proof.
  apply (debug_needs_stats_dict _ inpaint_debug response_null_stats
           [("output_image", JStr "TQ=="); ("stats", JNull)] [x4d]).
  - apply status_200_accepted. reflexivity.
  - reflexivity.
  - reflexivity.
  - reflexivity.
  - reflexivity.
  - reflexivity.
Defined.

(** The same answer is delivered when the call does not debug. *)
Example null_stats_without_debug :
  exists w',
    Inpainting.deliver (example_externals (Return response_null_stats)) inpaint_by_path
      response_null_stats example_world = (Return None, w') /\
    files w' !! "result.png" = Some [x4d].
Proof. eexists. split; vm_compute; reflexivity. Qed.

(** Extra X14.  An accepted answer whose body is no JSON text makes the third stage
    of either client raise the decoding error of [response.json()], the world
    unchanged. *)
Theorem undecodable_answer X injected c response w :
  status_accepted response ->
  resp_json response = None ->
  deliver_of X injected c response w = (Raise JSONDecodeError, w).
Proof.
  intros Hs Hj.
  assert (Hr : response_json_of response w = (Raise JSONDecodeError, w)).
  { unfold response_json_of. rewrite Hj. reflexivity. }
  destruct c as [a | a]; cbn [deliver_of]; unfold fmap_M; apply bind_Raise;
    [unfold Inpainting.deliver | unfold Segmentation.deliver];
    erewrite bind_Return by (apply raise_for_status_accepted, Hs);
    apply bind_Raise, Hr.
Qed.

(** Witness of X14: status 200 and a page of HTML. *)
Lemma undecodable_answer_witness :
  deliver_of (example_externals (Return response_not_json)) with_json
    (Segment segment_by_path) response_not_json example_world =
  (Raise JSONDecodeError, example_world).
Proof.
  apply undecodable_answer.
  - apply status_200_accepted. reflexivity.
  - reflexivity.
Defined.

(** Extra X15.  An accepted answer that decodes to something other than a
    dictionary makes the third stage raise [AttributeError] for [get], the
    world unchanged: always in the inpainting client, and in the segmentation
    client for an image in memory. *)
Theorem answer_not_a_dict X injected c response v w :
  status_accepted response ->
  resp_json response = Some v ->
  is_object v = false ->
  reads_answer c = true ->
  deliver_of X injected c response w = (Raise (AttributeError "get"), w).
Proof.
  intros Hs Hj Ho Hr.
  assert (Hg : forall key d, py_get v key d w = (Raise (AttributeError "get"), w)).
  { intros key d. destruct v; try reflexivity; discriminate. }
  destruct c as [a | a]; cbn [deliver_of reads_answer] in *; unfold fmap_M;
    apply bind_Raise;
    [unfold Inpainting.deliver | unfold Segmentation.deliver];
    erewrite bind_Return by (apply raise_for_status_accepted, Hs);
    erewrite bind_Return by (apply response_json_of_Some, Hj).
  - apply bind_Raise, Hg.
  - rewrite Hr. apply bind_Raise, Hg.
Qed.

(** Witness of X15: status 200 and a JSON list. *)
Lemma answer_not_a_dict_witness :
  deliver_of (example_externals (Return response_list)) with_json
    (Segment segment_in_memory) response_list example_world =
  (Raise (AttributeError "get"), example_world).
Proof.
  apply (answer_not_a_dict _ _ _ _ (JArr [])).
  - apply status_200_accepted. reflexivity.
  - reflexivity.
  - reflexivity.
  - reflexivity.
Defined.

(** ** The debug flag *)

Lemma agree_refl w : agree w w.
Proof. repeat split. Qed.

Lemma agree_sym w1 w2 : agree w1 w2 -> agree w2 w1.
Proof. intros (H1 & H2 & H3). repeat split; congruence. Qed.

Lemma agree_trans w1 w2 w3 : agree w1 w2 -> agree w2 w3 -> agree w1 w3.
Proof. intros (H1 & H2 & H3) (K1 & K2 & K3). repeat split; congruence. Qed.

Lemma alike_sym {A} (m1 m2 : M A) : alike m1 m2 -> alike m2 m1.
Proof.
  intros H w1 w2 Hw. destruct (H w2 w1 (agree_sym _ _ Hw)) as [H1 H2].
  split; [congruence | apply agree_sym, H2].
Qed.

Lemma alike_bind {A B} (m1 m2 : M A) (k1 k2 : A -> M B) :
  alike m1 m2 -> (forall a, alike (k1 a) (k2 a)) -> alike (bind m1 k1) (bind m2 k2).
Proof.
  intros Hm Hk w1 w2 Hw. unfold bind. destruct (Hm w1 w2 Hw) as [Ho Ha].
  destruct (m1 w1) as [[a1 | e1] u1], (m2 w2) as [[a2 | e2] u2];
    cbn in Ho, Ha; try discriminate.
  - injection Ho as <-. apply Hk, Ha.
  - injection Ho as <-. cbn. auto.
Qed.

(** A computation whose result does not depend on the world, and that
    leaves the world alone. *)
Lemma alike_constant {A} (m : M A) (o : Outcome A) :
  (forall w, m w = (o, w)) -> alike m m.
Proof. intros H w1 w2 Hw. rewrite !H. cbn. auto. Qed.

Lemma alike_ret {A} (a : A) : alike (ret a) (ret a).
Proof. apply (alike_constant _ (Return a)). reflexivity. Qed.

Lemma alike_raise {A} (e : Exn) : alike (@raise A e) (raise e).
Proof. apply (alike_constant _ (Raise e)). reflexivity. Qed.

Lemma alike_lift {A} (o : Outcome A) : alike (lift o) (lift o).
Proof. apply (alike_constant _ o). reflexivity. Qed.

Lemma alike_os_getenv name : alike (os_getenv name) (os_getenv name).
Proof.
  intros w1 w2 Hw. unfold os_getenv. cbn. split; [| exact Hw].
  destruct Hw as (-> & _). reflexivity.
Qed.

Lemma alike_read_binary path : alike (read_binary path) (read_binary path).
Proof.
  intros w1 w2 Hw. unfold read_binary. destruct Hw as (He & Hf & Hs). rewrite Hf.
  destruct (files w2 !! path); cbn; repeat split; assumption.
Qed.

Lemma alike_print l : alike (print l) (print l).
Proof. intros w1 w2 (He & Hf & Hs). cbn. repeat split; assumption. Qed.

Lemma alike_open_for_writing X path :
  alike (open_for_writing X path) (open_for_writing X path).
Proof.
  intros w1 w2 (He & Hf & Hs). unfold open_for_writing, agree.
  destruct (can_open_for_writing X path); cbn; rewrite ?He, ?Hf, ?Hs; auto.
Qed.

Lemma alike_file_write path data : alike (file_write path data) (file_write path data).
Proof. intros w1 w2 (He & Hf & Hs). unfold agree. cbn. rewrite ?He, ?Hf, ?Hs. auto. Qed.

Lemma alike_requests_post X req : alike (requests_post X req) (requests_post X req).
Proof. intros w1 w2 (He & Hf & Hs). unfold agree. cbn. rewrite ?He, ?Hf, ?Hs. auto. Qed.

Lemma alike_raise_for_status r : alike (raise_for_status r) (raise_for_status r).
Proof.
  unfold raise_for_status. destruct (_ && _); [apply alike_raise | apply alike_ret].
Qed.

Lemma alike_response_json_of r : alike (response_json_of r) (response_json_of r).
Proof.
  unfold response_json_of. destruct (resp_json r); [apply alike_ret | apply alike_raise].
Qed.

Lemma alike_py_get v key d : alike (py_get v key d) (py_get v key d).
Proof. destruct v; first [apply alike_ret | apply alike_raise]. Qed.

Lemma alike_py_iter v : alike (py_iter v) (py_iter v).
Proof. destruct v; first [apply alike_ret | apply alike_raise]. Qed.

Lemma alike_base64_b64decode v : alike (base64_b64decode v) (base64_b64decode v).
Proof.
  destruct v; try apply alike_raise. unfold base64_b64decode.
  destruct (Base64.b64decode s); [apply alike_ret |].
  destruct (Base64.is_ascii_string s); apply alike_raise.
Qed.

Lemma alike_json_attribute g attr : alike (json_attribute g attr) (json_attribute g attr).
Proof.
  unfold json_attribute, resolve.
  destruct (g !! "json") as [[m | ? | ?] |]; unfold bind, ret, raise;
    [destruct (String.eqb m "json") | ..];
    eapply alike_constant; intros w; reflexivity.
Qed.

Lemma alike_source_to_base64 X img path msg :
  alike (source_to_base64 X img path msg) (source_to_base64 X img path msg).
Proof.
  unfold source_to_base64. destruct img as [im |].
  - apply alike_bind; [apply alike_lift | intros; apply alike_ret].
  - destruct path as [p |]; [| apply alike_raise].
    apply alike_bind; [apply alike_read_binary | intros; apply alike_ret].
Qed.

Lemma alike_for_each {A B} (f : A -> M B) (l : list A) :
  (forall x, alike (f x) (f x)) -> alike (for_each f l) (for_each f l).
Proof.
  intros Hf. induction l as [| x rest IH]; cbn [for_each].
  - apply alike_ret.
  - apply alike_bind; [apply Hf | intros y].
    apply alike_bind; [apply IH | intros ys; apply alike_ret].
Qed.

Create HintDb alike.
#[local] Hint Resolve alike_ret alike_raise alike_lift alike_os_getenv alike_read_binary
  alike_print alike_open_for_writing alike_file_write alike_requests_post
  alike_raise_for_status alike_response_json_of alike_py_get alike_py_iter
  alike_base64_b64decode alike_json_attribute alike_source_to_base64 : alike.

(** Walks down two copies of a computation in step. *)
Ltac alike_steps :=
  repeat
    match goal with
    | |- alike (bind _ _) (bind _ _) => apply alike_bind; [| intros ?]
    | |- alike (if ?b then _ else _) (if ?b then _ else _) => destruct b
    | |- alike _ _ => solve [auto with alike]
    end.

Lemma alike_json_dumps g v : alike (json_dumps g v) (json_dumps g v).
Proof. unfold json_dumps. alike_steps. Qed.

Lemma alike_json_dump g v path : alike (json_dump g v path) (json_dump g v path).
Proof. unfold json_dump. alike_steps. Qed.

Lemma alike_decode_mask X v :
  alike (Segmentation.decode_mask X v) (Segmentation.decode_mask X v).
Proof. unfold Segmentation.decode_mask. alike_steps. Qed.

#[local] Hint Resolve alike_json_dumps alike_json_dump alike_decode_mask : alike.

Lemma alike_for_each_decode_mask X items :
  alike (for_each (Segmentation.decode_mask X) items)
        (for_each (Segmentation.decode_mask X) items).
Proof. apply alike_for_each, alike_decode_mask. Qed.

#[local] Hint Resolve alike_for_each_decode_mask : alike.

(** A silent step may be dropped from either side. *)
Lemma alike_silent_l {A} (m : M unit) (k1 k2 : M A) :
  silent m -> alike k1 k2 -> alike (bind m (fun _ => k1)) k2.
Proof.
  intros Hm Hk w1 w2 Hw. unfold bind. destruct (Hm w1) as [Ho Ha].
  destruct (m w1) as [[[] | e] u1]; cbn in Ho, Ha; [| discriminate].
  apply Hk. eapply agree_trans; eassumption.
Qed.

Lemma alike_when {A} (b d : bool) (m : M unit) (k1 k2 : M A) :
  silent m -> alike k1 k2 ->
  alike (bind (when b m) (fun _ => k1)) (bind (when d m) (fun _ => k2)).
Proof.
  intros Hm Hk.
  assert (Hret : silent (ret tt)) by (intros w; split; [reflexivity | apply agree_refl]).
  destruct b, d; cbn [when].
  - apply alike_silent_l; [exact Hm |]. apply alike_sym, alike_silent_l; [exact Hm |].
    apply alike_sym, Hk.
  - apply alike_silent_l; [exact Hm |]. apply alike_sym, alike_silent_l; [exact Hret |].
    apply alike_sym, Hk.
  - apply alike_silent_l; [exact Hret |]. apply alike_sym, alike_silent_l; [exact Hm |].
    apply alike_sym, Hk.
  - apply alike_silent_l; [exact Hret |]. apply alike_sym, alike_silent_l; [exact Hret |].
    apply alike_sym, Hk.
Qed.

Lemma silent_print l : silent (print l).
Proof. intros w. split; [reflexivity | repeat split]. Qed.

Lemma silent_bind (m1 m2 : M unit) : silent m1 -> silent m2 -> silent (bind m1 (fun _ => m2)).
Proof.
  intros H1 H2 w. unfold bind. destruct (H1 w) as [Ho Ha].
  destruct (m1 w) as [[[] | e] u1]; cbn in Ho, Ha; [| discriminate].
  destruct (H2 u1) as [Ho2 Ha2]. split; [exact Ho2 | eapply agree_trans; eassumption].
Qed.

Lemma alike_bind_raise {A B} (e : Exn) (k1 k2 : A -> M B) :
  alike (bind (raise e) k1) (bind (raise e) k2).
Proof. intros w1 w2 Hw. cbn. auto. Qed.

Lemma alike_bind_ret {A B} (a : A) (k1 k2 : A -> M B) :
  alike (k1 a) (k2 a) -> alike (bind (ret a) k1) (bind (ret a) k2).
Proof. intros H. exact H. Qed.

(** The continuation need only be alike on what the first part can
    return. *)
Lemma alike_bind_ensures {A B} (P : A -> Prop) (m1 m2 : M A) (k1 k2 : A -> M B) :
  alike m1 m2 ->
  (forall w a w', m1 w = (Return a, w') -> P a) ->
  (forall a, P a -> alike (k1 a) (k2 a)) ->
  alike (bind m1 k1) (bind m2 k2).
Proof.
  intros Hm HP Hk w1 w2 Hw. unfold bind. destruct (Hm w1 w2 Hw) as [Ho Ha].
  specialize (HP w1).
  destruct (m1 w1) as [[a1 | e1] u1], (m2 w2) as [[a2 | e2] u2];
    cbn in Ho, Ha; try discriminate.
  - injection Ho as <-. apply Hk; [eapply HP; reflexivity | exact Ha].
  - injection Ho as <-. cbn. auto.
Qed.

Lemma json_attribute_refused g attr :
  json_resolves g = false -> exists e, forall w, json_attribute g attr w = (Raise e, w).
Proof.
  unfold json_resolves, json_attribute, bind, resolve.
  destruct (g !! "json") as [[m | s | f] |]; cbn; eauto.
  intros H. rewrite H. eauto.
Qed.

Lemma silent_json_attribute g attr :
  json_resolves g = true -> silent (json_attribute g attr).
Proof.
  intros H w. rewrite json_attribute_resolved by exact H. split; [reflexivity | apply agree_refl].
Qed.

(** The lines a debugging call prints around the request. *)
Lemma silent_debug_request g p :
  json_resolves g = true ->
  silent (print (Line_post (endpoint_url p)) ;;
          json_attribute g "dumps" ;;
          print (Line_payload (payload p))).
Proof.
  intros H. apply silent_bind; [apply silent_print |].
  apply silent_bind; [apply silent_json_attribute, H | apply silent_print].
Qed.

Lemma silent_debug_response (r : Response) :
  silent (print (Line_status (status_code r)) ;; print (Line_text (text r))).
Proof. apply silent_bind; apply silent_print. Qed.

Ltac exchange_alike g :=
  cbv beta iota delta [when];
  destruct (json_resolves g) eqn:Hj;
  [ apply alike_when; [apply silent_debug_request, Hj |];
    apply alike_bind; [apply alike_json_dumps | intros data];
    apply alike_bind; [apply alike_requests_post | intros response];
    apply alike_when; [apply silent_debug_response | apply alike_ret]
  | destruct (json_attribute_refused g "dumps" Hj) as [e He];
    intros w1 w2 Hw;
    repeat match goal with |- context [if ?b then _ else _] => destruct b end;
    unfold json_dumps, bind, print, ret; cbv beta iota; rewrite !He; cbn;
    (split; [reflexivity | exact Hw]) ].

Lemma inpainting_exchange_alike X injected a1 a2 p :
  alike (Inpainting.exchange X injected a1 p) (Inpainting.exchange X injected a2 p).
Proof.
  unfold Inpainting.exchange. exchange_alike (Inpainting.globals injected).
Qed.

Lemma segmentation_exchange_alike X injected a1 a2 p :
  alike (Segmentation.exchange X injected a1 p) (Segmentation.exchange X injected a2 p).
Proof.
  unfold Segmentation.exchange. exchange_alike (Segmentation.globals injected).
Qed.

Lemma inpainting_prepare_alike X a b a' :
  Inpaint a' = set_debug (Inpaint a) b ->
  alike (Inpainting.prepare X a') (Inpainting.prepare X a).
Proof.
  intros [= ->]. unfold Inpainting.prepare. cbn.
  apply alike_bind; [apply alike_os_getenv | intros [k |]]; [| apply alike_raise].
  alike_steps.
Qed.

Lemma segmentation_prepare_alike X a b a' :
  Segment a' = set_debug (Segment a) b ->
  alike (Segmentation.prepare X a') (Segmentation.prepare X a).
Proof.
  intros [= ->]. unfold Segmentation.prepare. cbn.
  apply alike_bind; [apply alike_os_getenv | intros [k |]]; [| apply alike_raise].
  alike_steps.
Qed.

Lemma segmentation_deliver_alike X injected a b a' r :
  Segment a' = set_debug (Segment a) b ->
  alike (Segmentation.deliver X injected a' r) (Segmentation.deliver X injected a r).
Proof.
  intros [= ->]. unfold Segmentation.deliver. cbn. alike_steps.
Qed.

(** The timing lines of a debugging inpainting call. *)
Lemma silent_debug_timing (stats : list (string * json)) :
  silent (inference_time <- py_get (JObj stats) "inference_time" (JStr "N/A") ;;
          print (Line_inference_time inference_time) ;;
          overall_time <- py_get (JObj stats) "overall_time" (JStr "N/A") ;;
          print (Line_overall_time overall_time) ;;
          print Line_frontend_time).
Proof. intros w. split; [reflexivity | repeat split]. Qed.

Lemma inpainting_deliver_alike X a b a' r :
  Inpaint a' = set_debug (Inpaint a) b ->
  (forall fields,
     resp_json r = Some (JObj fields) ->
     is_object (Json.dict_get fields "stats" (JObj [])) = true) ->
  alike (Inpainting.deliver X a' r) (Inpainting.deliver X a r).
Proof.
  intros [= ->] Hstats. unfold Inpainting.deliver. cbn.
  apply alike_bind; [apply alike_raise_for_status | intros _].
  unfold response_json_of. destruct (resp_json r) as [v |]; [| apply alike_bind_raise].
  apply alike_bind_ret.
  destruct v as [| | | | | | fields]; try apply alike_bind_raise.
  specialize (Hstats fields eq_refl).
  unfold py_get at 1 2 5 6. apply alike_bind_ret, alike_bind_ret.
  destruct (Json.dict_get fields "stats" (JObj [])) as [| | | | | | stats]; try discriminate.
  destruct (negb _); [apply alike_raise |].
  apply alike_bind; [apply alike_base64_b64decode | intros data].
  apply alike_when; [apply silent_debug_timing |].
  alike_steps.
Qed.

Lemma inpainting_exchange_answer X injected a p w r w' :
  Inpainting.exchange X injected a p w = (Return r, w') ->
  http_post X (request_of p) = Return r.
Proof.
  intros H. destruct (json_resolves (Inpainting.globals injected)) eqn:Hj.
  - destruct (inpainting_exchange_resolved X injected a p w Hj) as (w1 & He & _).
    congruence.
  - destruct (inpainting_exchange_unresolved X injected a p w Hj) as (e & He).
    congruence.
Qed.

Lemma alike_fmap_M {A B} (f : A -> B) (m1 m2 : M A) :
  alike m1 m2 -> alike (fmap_M f m1) (fmap_M f m2).
Proof. intros H. apply alike_bind; [exact H | intros x; apply alike_ret]. Qed.

Lemma run_in_alike X injected c b :
  stats_harmless X c ->
  alike (run_in X injected (set_debug c b)) (run_in X injected c).
Proof.
  intros Hst. destruct c as [a | a].
  - remember (set_debug (Inpaint a) b) as c' eqn:Hc. pose proof Hc as Hc'.
    cbn in Hc'. destruct c' as [a' |]; [| discriminate]. clear Hc'.
    cbn [run_in]. apply alike_fmap_M.
    unfold Inpainting.inpaint_image_via_faas_in.
    apply alike_bind; [apply (inpainting_prepare_alike X a b), Hc | intros p].
    apply (alike_bind_ensures (fun r => http_post X (request_of p) = Return r)).
    + apply inpainting_exchange_alike.
    + intros w r w'. apply inpainting_exchange_answer.
    + intros r Hr. apply (inpainting_deliver_alike X a b); [exact Hc |].
      intros fields. apply (Hst (request_of p)), Hr.
  - remember (set_debug (Segment a) b) as c' eqn:Hc. pose proof Hc as Hc'.
    cbn in Hc'. destruct c' as [| a']; [discriminate |]. clear Hc'.
    cbn [run_in]. apply alike_fmap_M.
    unfold Segmentation.segment_image_via_faas_in.
    apply alike_bind; [apply (segmentation_prepare_alike X a b), Hc | intros p].
    apply alike_bind; [apply segmentation_exchange_alike | intros r].
    apply (segmentation_deliver_alike X injected a b), Hc.
Qed.

(** Extra X16.  The debug flag changes what a call prints and nothing else.  With
    the flag set either way, a call of either function, in whatever namespace,
    ends with the same result or the same exception and leaves the same
    environment, the same files and the same requests behind.  For the
    inpainting client this needs [stats], when the answer has one, to be a
    dictionary, which the debugging lines read. *)
Theorem debug_changes_output_only X injected c b w :
  stats_harmless X c ->
  fst (run_in X injected (set_debug c b) w) = fst (run_in X injected c w) /\
  environ (snd (run_in X injected (set_debug c b) w)) =
  environ (snd (run_in X injected c w)) /\
  files (snd (run_in X injected (set_debug c b) w)) =
  files (snd (run_in X injected c w)) /\
  sent (snd (run_in X injected (set_debug c b) w)) =
  sent (snd (run_in X injected c w)).
Proof.
  intros Hst. exact (run_in_alike X injected c b Hst w w (agree_refl w)).
Qed.

(** Witness of X16: the call by path of the examples, debugging or not: the
    same result, not the same output. *)
Lemma debug_changes_output_witness :
  stats_harmless (example_externals (Return response_output)) (Inpaint inpaint_by_path) /\
  fst (run_in (example_externals (Return response_output)) with_json
         (set_debug (Inpaint inpaint_by_path) true) example_world) =
  fst (run_in (example_externals (Return response_output)) with_json
         (Inpaint inpaint_by_path) example_world) /\
  stdout (snd (run_in (example_externals (Return response_output)) with_json
                 (set_debug (Inpaint inpaint_by_path) true) example_world)) <>
  stdout (snd (run_in (example_externals (Return response_output)) with_json
                 (Inpaint inpaint_by_path) example_world)).
Proof.
  assert (H : stats_harmless (example_externals (Return response_output))
                (Inpaint inpaint_by_path)).
  { intros req response fields H1 H2. cbn in H1. injection H1 as <-.
    cbn in H2. injection H2 as <-. reflexivity. }
  split; [exact H |]. split.
  - apply (debug_changes_output_only (example_externals (Return response_output))
             with_json (Inpaint inpaint_by_path) true example_world H).
  - vm_compute. discriminate.
Defined.
